(** * Movie-Review-Api: the views of [reviews/views.py]

    A shallow embedding of the request handlers of [reviews/views.py] and of
    the framework calls they make, and the properties of the review query,
    pagination and authorization contract proved over it.

    Layout:
    - [Py]: the Python builtins the views call ([int], truthiness of [str],
      case folding and substring search);
    - [Models]: the rows and tables behind [Movie.objects], [Review.objects]
      and [User], with the manager calls the views make;
    - [DRF]: responses, exceptions, permissions and page-number pagination of
      the web framework, as the view classes inherit them;
    - [Serializers]: the interface of [MovieSerializer] and [ReviewSerializer];
    - [AuthLib] and [Profile]: the interface of the authentication library,
      and of the hasher and the store under a profile update;
    - [Views]: the handlers, one definition per method of the source;
    - the theorems. *)

From Stdlib Require Import ZArith Ascii String List Bool.
From stdpp Require Import base option list gmap strings.

Local Open Scope string_scope.
Local Open Scope Z_scope.

(** ** Python builtins *)

Module Py.

(** [str.isspace] on one code point below 128: TAB, LF, VT, FF, CR, the
    four separators FS, GS, RS, US, and the space.  [str.split] splits at
    these. *)
Definition isspace (c : ascii) : bool :=
  let n := Z.of_N (N_of_ascii c) in
  ((9 <=? n) && (n <=? 13)) || ((28 <=? n) && (n <=? 32)).

(** [str.isascii]: every code point is below 128. *)
Definition isascii (s : string) : bool :=
  forallb (fun c => (N_of_ascii c <? 128)%N) (list_ascii_of_string s).

(** What [int] skips at both ends of an ASCII string: TAB, LF, VT, FF, CR
    and the space.  The separators FS, GS, RS, US are not skipped. *)
Definition is_int_space (c : ascii) : bool :=
  let n := Z.of_N (N_of_ascii c) in
  ((9 <=? n) && (n <=? 13)) || (n =? 32).

Fixpoint lstrip (l : list ascii) : list ascii :=
  match l with
  | c :: l' => if is_int_space c then lstrip l' else l
  | [] => []
  end.

Definition strip (l : list ascii) : list ascii :=
  rev (lstrip (rev (lstrip l))).

Definition digit_val (c : ascii) : option Z :=
  let n := Z.of_N (N_of_ascii c) in
  if (48 <=? n) && (n <=? 57) then Some (n - 48) else None.

(** The digits of a decimal literal after its first digit: digits, with
    single underscores allowed between two digits.  [after_us] records that
    the previous character was an underscore; the result carries the value
    and the number of digits read. *)
Fixpoint digits (after_us : bool) (acc : Z) (cnt : nat) (l : list ascii)
  : option (Z * nat) :=
  match l with
  | [] => if after_us then None else Some (acc, cnt)
  | c :: l' =>
      if Ascii.eqb c "_"%char
      then (if after_us then None else digits true acc cnt l')
      else match digit_val c with
           | Some d => digits false (10 * acc + d) (S cnt) l'
           | None => None
           end
  end.

Definition unsigned (l : list ascii) : option (Z * nat) :=
  match l with
  | [] => None
  | c :: l' =>
      match digit_val c with
      | Some d => digits false d 1 l'
      | None => None
      end
  end.

(** [sys.get_int_max_str_digits()]: a longer decimal string is refused
    with [ValueError]. *)
Definition int_max_str_digits : nat := 4300.

(** [int(s)] in base 10 for a [str] with [isascii s]; [None] stands for
    [ValueError].  The Unicode digits and spaces that [int] also reads in a
    string with other characters are outside this function: what is stated
    of a parameter through [int] is stated of an ASCII parameter. *)
Definition int (s : string) : option Z :=
  let body := strip (list_ascii_of_string s) in
  let '(neg, rest) :=
    match body with
    | c :: l' =>
        if Ascii.eqb c "-"%char then (true, l')
        else if Ascii.eqb c "+"%char then (false, l')
        else (false, body)
    | [] => (false, body)
    end in
  match unsigned rest with
  | Some (v, cnt) =>
      if (int_max_str_digits <? cnt)%nat then None
      else Some (if neg then - v else v)
  | None => None
  end.

(** Truth value of a [str]: every string but the empty one. *)
Definition truthy (s : string) : bool :=
  match s with
  | EmptyString => false
  | String _ _ => true
  end.

(** Truth value of [d.get(key)] where the values are [str]: [None] is
    false. *)
Definition truthy_opt (o : option string) : bool :=
  match o with
  | Some s => truthy s
  | None => false
  end.

Definition lower_char (c : ascii) : ascii :=
  let n := N_of_ascii c in
  if ((65 <=? n) && (n <=? 90))%N then ascii_of_N (n + 32) else c.

Fixpoint lower (s : string) : string :=
  match s with
  | EmptyString => EmptyString
  | String c s' => String (lower_char c) (lower s')
  end.

(** [needle in hay]. *)
Fixpoint contains (needle hay : string) : bool :=
  if String.prefix needle hay then true
  else match hay with
       | EmptyString => false
       | String _ hay' => contains needle hay'
       end.

(** [s.split()]: the maximal runs of characters that are not white
    space.  [cur] holds the run being read, last character first. *)
Fixpoint split_go (cur : list ascii) (l : list ascii) : list string :=
  match l with
  | [] =>
      match cur with
      | [] => []
      | _ :: _ => [string_of_list_ascii (rev cur)]
      end
  | c :: l' =>
      if isspace c
      then match cur with
           | [] => split_go [] l'
           | _ :: _ => string_of_list_ascii (rev cur) :: split_go [] l'
           end
      else split_go (c :: cur) l'
  end.

Definition split (s : string) : list string :=
  split_go [] (list_ascii_of_string s).

End Py.

(** ** Exceptions

    The exceptions a handler can leave with: those of the object-relational
    mapper, the [TypeError] of the interpreter, and the framework's
    [APIException]s, which its exception handler turns into responses. *)

Inductive Exn : Type :=
| DoesNotExist (model : string)
| MultipleObjectsReturned (model : string)
| IntegrityError
| DataError
| TypeError (what : string)
| AttributeError (what : string)
| ContentNotRenderedError
| ValidationError (errors : list (string * string))
| NotFound (detail : string)
| PermissionDenied
| NotAuthenticated.

(** ** Tables and manager calls *)

Module Models.

(** [django.contrib.auth.models.User], the columns the views read or
    write.  [is_staff] is the flag [IsAdminUser] tests. *)
Record User : Type := mkUser {
  user_id : Z;
  username : string;
  password : string;
  email : string;
  first_name : string;
  last_name : string;
  is_staff : bool
}.

(** Modelled from the spec: [reviews/models.py] is missing; a movie has a
    title and a genre (the two columns the views name in
    [search_fields]). *)
Record Movie : Type := mkMovie {
  movie_id : Z;
  title : string;
  genre : string
}.

(** Modelled from the spec: [reviews/models.py] is missing; a review
    belongs to one movie and one user, has an integer rating, a free text
    and a creation time.  The views name the columns
    [movie], [user], [rating] and [created_at]. *)
Record Review : Type := mkReview {
  review_id : Z;
  movie : Z;
  user : Z;
  rating : Z;
  body : string;
  created_at : Z
}.

Record DB : Type := mkDB {
  users : list User;
  movies : list Movie;
  reviews : list Review
}.

(** [Manager.get(...)] over the rows that satisfy the lookup. *)
Definition get {A : Type} (model : string) (matching : list A) : Exn + A :=
  match matching with
  | [] => inl (DoesNotExist model)
  | [x] => inr x
  | _ :: _ :: _ => inl (MultipleObjectsReturned model)
  end.

(** [Movie.objects.get(id=movie_id)] *)
Definition Movie_objects_get (db : DB) (id : Z) : Exn + Movie :=
  get "Movie" (List.filter (fun m => movie_id m =? id) (movies db)).

(** [Review.objects.get(id=review_id, user=request.user)] *)
Definition Review_objects_get (db : DB) (id : Z) (u : User) : Exn + Review :=
  get "Review"
    (List.filter (fun r => (review_id r =? id) && (user r =? user_id u))
       (reviews db)).

(** The title of the movie a review row points to (the join behind a
    [movie__title] lookup). *)
Definition movie_title_of (db : DB) (r : Review) : option string :=
  title <$> List.find (fun m => movie_id m =? movie r) (movies db).

(** [icontains]: containment after case folding. *)
Definition icontains (needle hay : string) : bool :=
  Py.contains (Py.lower needle) (Py.lower hay).

(** The condition of the lookup [movie__title__icontains=movie_title] on one
    review row. *)
Definition title_matches (db : DB) (movie_title : string) (r : Review)
  : bool :=
  match movie_title_of db r with
  | Some t => icontains movie_title t
  | None => false
  end.

(** [queryset.filter(movie__title__icontains=movie_title)] *)
Definition filter_movie_title (db : DB) (movie_title : string)
    (qs : list Review) : list Review :=
  List.filter (title_matches db movie_title) qs.

(** [queryset.filter(rating=rating)] *)
Definition filter_rating (r : Z) (qs : list Review) : list Review :=
  List.filter (fun rv => rating rv =? r) qs.

(** [Review.objects.filter(movie_id=movie_id)] *)
Definition filter_movie_id (id : Z) (qs : list Review) : list Review :=
  List.filter (fun rv => movie rv =? id) qs.

Definition exists_movie (db : DB) (id : Z) : bool :=
  existsb (fun m => movie_id m =? id) (movies db).

Definition exists_user (db : DB) (id : Z) : bool :=
  existsb (fun u => user_id u =? id) (users db).

(** Referential integrity of the review table towards the movies. *)
Definition reviews_have_movies (db : DB) : Prop :=
  forall r, r ∈ reviews db -> exists_movie db (movie r) = true.

(** The next value of an auto-incremented primary key. *)
Definition next_id (ids : list Z) : Z := 1 + fold_right Z.max 0 ids.

(** [instance.save()] of a row that is already stored: the row with this
    primary key is replaced; a row that is not there is inserted. *)
Fixpoint save_user (u : User) (l : list User) : list User :=
  match l with
  | [] => [u]
  | x :: l' => if user_id x =? user_id u then u :: l' else x :: save_user u l'
  end.

Definition User_save (u : User) (db : DB) : DB :=
  mkDB (save_user u (users db)) (movies db) (reviews db).

Fixpoint save_movie (m : Movie) (l : list Movie) : list Movie :=
  match l with
  | [] => [m]
  | x :: l' => if movie_id x =? movie_id m then m :: l' else x :: save_movie m l'
  end.

Definition Movie_save (m : Movie) (db : DB) : DB :=
  mkDB (users db) (save_movie m (movies db)) (reviews db).

Fixpoint save_review (r : Review) (l : list Review) : list Review :=
  match l with
  | [] => [r]
  | x :: l' =>
      if review_id x =? review_id r then r :: l' else x :: save_review r l'
  end.

Definition Review_save (r : Review) (db : DB) : DB :=
  mkDB (users db) (movies db) (save_review r (reviews db)).

(** [Movie.objects.create(title=..., genre=...)] *)
Definition Movie_objects_create (t g : string) (db : DB) : Movie * DB :=
  let m := mkMovie (next_id (List.map movie_id (movies db))) t g in
  (m, mkDB (users db) (movies db ++ [m]) (reviews db)).

(** [Review.objects.create(movie=..., user=..., rating=..., body=...)];
    [created_at] is set to the time of the call. *)
Definition Review_objects_create (mv us rt : Z) (txt : string) (now : Z)
    (db : DB) : Review * DB :=
  let r := mkReview (next_id (List.map review_id (reviews db)))
             mv us rt txt now in
  (r, mkDB (users db) (movies db) (reviews db ++ [r])).

(** Modelled from the spec: [reviews/models.py], which fixes what
    [movie.delete()] does to the reviews of the movie, is missing; they go
    with the movie (a review always references an existing movie). *)
Definition Movie_delete (m : Movie) (db : DB) : DB :=
  mkDB (users db)
    (List.filter (fun x => negb (movie_id x =? movie_id m)) (movies db))
    (List.filter (fun r => negb (movie r =? movie_id m)) (reviews db)).

(** [review.delete()] *)
Definition Review_delete (r : Review) (db : DB) : DB :=
  mkDB (users db) (movies db)
    (List.filter (fun x => negb (review_id x =? review_id r)) (reviews db)).

End Models.

(** ** The web framework: responses, permissions, dispatch, pagination *)

Module DRF.
Import Models.

(** A value of a parsed request body: a JSON number or string. *)
Inductive Value : Type :=
| VInt (z : Z)
| VStr (s : string).

(** [serializer.errors]: field name and message. *)
Definition Errors : Type := list (string * string).

(** What a [Response] carries.  Serialized rows are kept as the rows. *)
Inductive Body : Type :=
| BError (msg : string)
| BMessage (msg : string)
| BDetail (msg : string)
| BTokens (refresh access : string)
| BErrors (errs : Errors)
| BMovie (m : Movie)
| BMovies (l : list Movie)
| BReview (r : Review)
| BReviews (l : list Review)
| BPage (count : Z) (next previous : option Z) (results : list Review)
| BNone.

Record Response : Type := mkResponse { data : Body; status : Z }.

Definition HTTP_200_OK : Z := 200.
Definition HTTP_201_CREATED : Z := 201.
Definition HTTP_204_NO_CONTENT : Z := 204.
Definition HTTP_400_BAD_REQUEST : Z := 400.
Definition HTTP_401_UNAUTHORIZED : Z := 401.
Definition HTTP_403_FORBIDDEN : Z := 403.
Definition HTTP_404_NOT_FOUND : Z := 404.

(** [Response(data)]: the status defaults to 200. *)
Definition Response_ok (b : Body) : Response := mkResponse b HTTP_200_OK.

(** How a handler ends: it returns a response or leaves with an
    exception. *)
Inductive Outcome : Type :=
| Returned (r : Response)
| Raised (e : Exn).

(** A handler runs against the tables and leaves them as it wrote them,
    also when it raises. *)
Definition Handler : Type := DB -> Outcome * DB.

(** *** Permissions *)

Inductive Permission : Type := AllowAny | IsAuthenticated | IsAdminUser.

(** [request.user] is [None] for the anonymous user. *)
Definition has_permission (p : Permission) (request_user : option User)
  : bool :=
  match p, request_user with
  | AllowAny, _ => true
  | IsAuthenticated, Some _ => true
  | IsAdminUser, Some u => is_staff u
  | _, None => false
  end.

(** [APIView.check_permissions] with [permission_denied]: the first class
    that refuses ends the request, with [NotAuthenticated] for the
    anonymous user and [PermissionDenied] otherwise. *)
Definition check_permissions (perms : list Permission)
    (request_user : option User) : option Exn :=
  if forallb (fun p => has_permission p request_user) perms then None
  else Some (match request_user with
             | None => NotAuthenticated
             | Some _ => PermissionDenied
             end).

(** [rest_framework.views.exception_handler] as [handle_exception] calls
    it: an [APIException] becomes a response with its status code, any
    other exception is raised again. *)
Definition handle_exception (e : Exn) : Outcome :=
  match e with
  | ValidationError errs =>
      Returned (mkResponse (BErrors errs) HTTP_400_BAD_REQUEST)
  | NotFound d => Returned (mkResponse (BDetail d) HTTP_404_NOT_FOUND)
  | PermissionDenied =>
      Returned (mkResponse
        (BDetail "You do not have permission to perform this action.")
        HTTP_403_FORBIDDEN)
  | NotAuthenticated =>
      Returned (mkResponse
        (BDetail "Authentication credentials were not provided.")
        HTTP_401_UNAUTHORIZED)
  | _ => Raised e
  end.

(** [APIView.dispatch]: permissions first, then the handler, then the
    exception handler on what the handler raised. *)
Definition dispatch (perms : list Permission) (request_user : option User)
    (handler : option User -> Handler) : Handler :=
  fun db =>
    match check_permissions perms request_user with
    | Some e => (handle_exception e, db)
    | None =>
        let '(o, db') := handler request_user db in
        (match o with
         | Raised e => handle_exception e
         | Returned _ => o
         end, db')
    end.

(** A handler that reads [request.user] as a stored user.  The views that
    have one list [IsAuthenticated] or [IsAdminUser], so [dispatch] never
    runs it for the anonymous user, whose use as a row is a [TypeError]. *)
Definition as_user (h : User -> Handler) : option User -> Handler :=
  fun request_user db =>
    match request_user with
    | Some u => h u db
    | None => (Raised (TypeError "AnonymousUser"), db)
    end.

(** The status the client sees: an exception that nothing handled is
    answered with 500. *)
Definition client_status (o : Outcome) : Z :=
  match o with
  | Returned r => status r
  | Raised _ => 500
  end.

(** *** Page-number pagination *)

(** What a view hands to the paginator: a queryset, or whatever else the
    code put in its place. *)
Inductive Obj : Type :=
| QuerySet (rows : list Review)
| ResponseObj (r : Response).

(** The class attributes of a [PageNumberPagination] subclass. *)
Record PaginationClass : Type := mkPagination {
  page_size : Z;
  page_size_query_param : option string;
  max_page_size : option Z
}.

Definition page_query_param : string := "page".
Definition last_page_strings : list string := ["last"].

(** [_positive_int(integer_string, strict, cutoff)]; [None] is
    [ValueError]. *)
Definition positive_int (integer_string : string) (strict : bool)
    (cutoff : option Z) : option Z :=
  match Py.int integer_string with
  | Some ret =>
      if (ret <? 0) || ((ret =? 0) && strict) then None
      else match cutoff with
           | Some c => if c =? 0 then Some ret else Some (Z.min ret c)
           | None => Some ret
           end
  | None => None
  end.

(** [PageNumberPagination.get_page_size] *)
Definition get_page_size (cls : PaginationClass)
    (query_params : gmap string string) : Z :=
  match page_size_query_param cls with
  | Some param =>
      match query_params !! param with
      | Some s =>
          match positive_int s true (max_page_size cls) with
          | Some n => n
          | None => page_size cls
          end
      | None => page_size cls
      end
  | None => page_size cls
  end.

(** [django.core.paginator.Paginator] with no orphans and an empty first
    page allowed (its defaults, which the framework leaves in place). *)
Definition count (object_list : Obj) : Exn + Z :=
  match object_list with
  | QuerySet rows => inr (Z.of_nat (length rows))
  | ResponseObj _ => inl (TypeError "object of type 'Response' has no len()")
  end.

Definition ceil_div (a b : Z) : Z := (a + b - 1) / b.

Definition num_pages (object_list : Obj) (per_page : Z) : Exn + Z :=
  match count object_list with
  | inr c => inr (ceil_div (Z.max 1 c) per_page)
  | inl e => inl e
  end.

(** A page number as the paginator receives it: the default [1] or the
    number of the last page, or the text of the query parameter. *)
Inductive PageNumber : Type :=
| PInt (n : Z)
| PStr (s : string).

Inductive InvalidPage : Type := PageNotAnInteger | EmptyPage.

(** [Paginator.validate_number] *)
Definition validate_number (object_list : Obj) (per_page : Z)
    (number : PageNumber) : Exn + (InvalidPage + Z) :=
  match (match number with PInt n => Some n | PStr s => Py.int s end) with
  | None => inr (inl PageNotAnInteger)
  | Some n =>
      if n <? 1 then inr (inl EmptyPage)
      else match num_pages object_list per_page with
           | inl e => inl e
           | inr np =>
               if (np <? n) && negb (n =? 1) then inr (inl EmptyPage)
               else inr (inr n)
           end
  end.

Record Page : Type := mkPage {
  page_rows : list Review;
  number : Z;
  page_count : Z;
  page_num_pages : Z
}.

(** [object_list[bottom:top]] for [0 <= bottom]. *)
Definition slice (rows : list Review) (bottom top : Z) : list Review :=
  take (Z.to_nat (top - bottom)) (drop (Z.to_nat bottom) rows).

(** [Paginator.page] *)
Definition page (object_list : Obj) (per_page : Z) (number : PageNumber)
  : Exn + (InvalidPage + Page) :=
  match validate_number object_list per_page number with
  | inl e => inl e
  | inr (inl bad) => inr (inl bad)
  | inr (inr n) =>
      match object_list with
      | ResponseObj _ =>
          inl (TypeError "object of type 'Response' has no len()")
      | QuerySet rows =>
          let c := Z.of_nat (length rows) in
          let bottom := (n - 1) * per_page in
          let top := if c <=? bottom + per_page then c
                     else bottom + per_page in
          inr (inr (mkPage (slice rows bottom top) n c
                      (ceil_div (Z.max 1 c) per_page)))
      end
  end.

(** [PageNumberPagination.get_page_number]; an empty value counts as no
    value. *)
Definition get_page_number (query_params : gmap string string)
    (object_list : Obj) (per_page : Z) : Exn + PageNumber :=
  match query_params !! page_query_param with
  | Some s =>
      if Py.truthy s then
        if bool_decide (s ∈ last_page_strings)
        then match num_pages object_list per_page with
             | inr np => inr (PInt np)
             | inl e => inl e
             end
        else inr (PStr s)
      else inr (PInt 1)
  | None => inr (PInt 1)
  end.

(** [PageNumberPagination.paginate_queryset]: [None] when pagination is
    off, [NotFound] for an invalid page. *)
Definition paginate_queryset (cls : PaginationClass) (object_list : Obj)
    (query_params : gmap string string) : Exn + option Page :=
  let per_page := get_page_size cls query_params in
  if per_page =? 0 then inr None
  else
    match get_page_number query_params object_list per_page with
    | inl e => inl e
    | inr page_number =>
        match page object_list per_page page_number with
        | inl e => inl e
        | inr (inl _) => inl (NotFound "Invalid page.")
        | inr (inr p) => inr (Some p)
        end
    end.

(** [PageNumberPagination.get_paginated_response]; the links are kept as
    the number of the page they lead to. *)
Definition get_paginated_response (p : Page) (results : list Review)
  : Response :=
  Response_ok
    (BPage (page_count p)
       (if number p <? page_num_pages p then Some (number p + 1) else None)
       (if 1 <? number p then Some (number p - 1) else None)
       results).

(** *** Search filter *)

Definition search_param : string := "search".

(** [SearchFilter.get_search_terms]: null characters are dropped, commas
    count as spaces, and the text is split at white space. *)
Definition get_search_terms (query_params : gmap string string)
  : list string :=
  let params := default "" (query_params !! search_param) in
  let chars :=
    List.map (fun c => if Ascii.eqb c ","%char then " "%char else c)
      (List.filter (fun c => negb (Ascii.eqb c Ascii.zero))
         (list_ascii_of_string params)) in
  Py.split (string_of_list_ascii chars).

(** [SearchFilter.filter_queryset] over the movies with the search fields
    [title] and [genre]: every term must be contained in one of them. *)
Definition search_movies (query_params : gmap string string)
    (qs : list Movie) : list Movie :=
  match get_search_terms query_params with
  | [] => qs
  | terms =>
      List.filter
        (fun m => forallb
           (fun t => icontains t (title m) || icontains t (genre m)) terms)
        qs
  end.

End DRF.

(** ** Serializers and the authentication library

    [reviews/serializers.py] is missing, and the password hasher,
    [authenticate] and the token library are external.  The views are
    stated over any serializers and any authentication library of the shape
    below. *)

Module Serializers.
Import Models DRF.

(** [serializer.validated_data]: the attributes that validation produced;
    a field that is read-only or was left out is absent. *)
Record MovieAttrs : Type := mkMovieAttrs {
  a_title : option string;
  a_genre : option string
}.

Record ReviewAttrs : Type := mkReviewAttrs {
  a_movie : option Z;
  a_user : option Z;
  a_rating : option Z;
  a_body : option string
}.

(** Modelled from the spec: [reviews/serializers.py] is missing; field
    validation is delegated to a declarative schema.
    [is_valid] receives the tables, the instance when there is one and the
    request body, and gives the errors or the validated attributes.  A
    relation that validation takes from a number in the body is the row
    with that primary key. *)
Class Schema : Type := {
  MovieSerializer_is_valid :
    DB -> option Movie -> gmap string Value -> Errors + MovieAttrs;
  ReviewSerializer_is_valid :
    DB -> option Review -> gmap string Value -> Errors + ReviewAttrs;
  ReviewSerializer_user_pk : forall db inst d a u k,
    ReviewSerializer_is_valid db inst d = inr a ->
    a_user a = Some u -> d !! "user" = Some (VInt k) -> u = k;
  ReviewSerializer_movie_pk : forall db inst d a m k,
    ReviewSerializer_is_valid db inst d = inr a ->
    a_movie a = Some m -> d !! "movie" = Some (VInt k) -> m = k
}.

(** [serializer.save(movie=..., user=...)]: the keyword arguments are laid
    over the validated attributes. *)
Definition with_kwargs (a : ReviewAttrs) (mv us : Z) : ReviewAttrs :=
  mkReviewAttrs (Some mv) (Some us) (a_rating a) (a_body a).

(** [ModelSerializer.create]: [Review.objects.create] on the validated
    attributes.  The movie, the user and the rating cannot be null, and the two
    relations must point to stored rows. *)
Definition ReviewSerializer_create (a : ReviewAttrs) (now : Z) (db : DB)
  : Exn + (Review * DB) :=
  match a_movie a, a_user a, a_rating a with
  | Some mv, Some us, Some rt =>
      if exists_movie db mv && exists_user db us
      then inr (Review_objects_create mv us rt (default "" (a_body a)) now db)
      else inl IntegrityError
  | _, _, _ => inl IntegrityError
  end.

(** [ModelSerializer.update]: each validated attribute is set on the
    instance, which is then saved. *)
Definition ReviewSerializer_update (inst : Review) (a : ReviewAttrs)
    (db : DB) : Exn + (Review * DB) :=
  let r := mkReview (review_id inst)
             (default (movie inst) (a_movie a))
             (default (user inst) (a_user a))
             (default (rating inst) (a_rating a))
             (default (body inst) (a_body a))
             (created_at inst) in
  if exists_movie db (movie r) && exists_user db (user r)
  then inr (r, Review_save r db)
  else inl IntegrityError.

Definition MovieSerializer_create (a : MovieAttrs) (db : DB) : Movie * DB :=
  Movie_objects_create (default "" (a_title a)) (default "" (a_genre a)) db.

Definition MovieSerializer_update (inst : Movie) (a : MovieAttrs) (db : DB)
  : Movie * DB :=
  let m := mkMovie (movie_id inst)
             (default (title inst) (a_title a))
             (default (genre inst) (a_genre a)) in
  (m, Movie_save m db).

End Serializers.

Module AuthLib.
Import Models.

(** [RefreshToken.for_user(user)]: [str(refresh)] and
    [str(refresh.access_token)]. *)
Record RefreshToken : Type := mkRefreshToken {
  refresh_str : string;
  access_token_str : string
}.

(** Modelled from the spec: credential verification, password hashing and
    token issuance belong to an external authentication module.  A
    username or password that is [None] is passed on as it is.  An
    encoded token is never the empty string. *)
Class Auth : Type := {
  authenticate : DB -> option string -> option string -> option User;
  make_password : string -> string;
  RefreshToken_for_user : User -> RefreshToken;
  refresh_str_nonempty :
    forall u, refresh_str (RefreshToken_for_user u) <> "";
  access_token_str_nonempty :
    forall u, access_token_str (RefreshToken_for_user u) <> ""
}.

End AuthLib.

(** ** The body of a profile update, the hasher and the store

    [UserUpdateView.put] validates nothing: the values of the body go to
    [make_password] and to the columns of the user table as they come. *)

Module Profile.

(** A value of the body, a parsed JSON object: a text (kept as its UTF-8
    bytes), [null], or any other value (a number, a truth value, a list, an
    object), kept as the text that [str()] gives for it. *)
Inductive JSON : Type :=
| JString (s : string)
| JNull
| JOther (str : string).

(** Modelled from the spec: the password hasher and the data store are
    external collaborators.  [make_password_nontext] is [make_password] on
    a value that is not a text (the hasher may hash it, give an unusable
    password for [null], or raise).  [column_fault column text] is the fault
    with which the engine refuses [text] for a column of the user table
    (one that is longer than the column is wide, on an engine that checks
    widths), and [None] when it takes the text. *)
Class External : Type := {
  make_password_nontext : JSON -> Exn + string;
  column_fault : string -> string -> option Exn
}.

End Profile.

(** ** The views of [reviews/views.py] *)

Import Models DRF Serializers AuthLib Profile.

(** [class ReviewPagination(PageNumberPagination)] *)
Definition ReviewPagination : PaginationClass :=
  mkPagination 10 (Some "page_size") (Some 100).

Definition rating_out_of_range : Response :=
  mkResponse (BError "Rating must be between 1 and 5.") HTTP_400_BAD_REQUEST.

Definition rating_not_an_integer : Response :=
  mkResponse
    (BError "Invalid rating value. Rating must be an integer between 1 and 5.")
    HTTP_400_BAD_REQUEST.

(** [class ReviewViewSet(viewsets.ModelViewSet)]: [get_queryset] and [list]
    are the two methods the class defines.  [list] does not pass the
    queryset through [filter_queryset], so the search and ordering backends
    that the class lists do not act on it. *)
Module ReviewViewSet.

Definition permission_classes : list Permission := [IsAuthenticated].
Definition pagination_class : PaginationClass := ReviewPagination.

(** [get_queryset]: what it returns is a queryset, or the [Response] of
    one of its two early returns. *)
Definition get_queryset (query_params : gmap string string) (db : DB)
  : Obj :=
  let queryset := reviews db in
  let movie_title := query_params !! "movie_title" in
  let rating := query_params !! "rating" in
  let queryset :=
    match movie_title with
    | Some t =>
        if Py.truthy t then filter_movie_title db t queryset else queryset
    | None => queryset
    end in
  match rating with
  | Some s =>
      if Py.truthy s then
        match Py.int s with
        | Some r =>
            if (1 <=? r) && (r <=? 5)
            then QuerySet (filter_rating r queryset)
            else ResponseObj rating_out_of_range
        | None => ResponseObj rating_not_an_integer
        end
      else QuerySet queryset
  | None => QuerySet queryset
  end.

(** [list]: the value of [get_queryset] goes to the paginator as it is. *)
Definition list (query_params : gmap string string) : Handler :=
  fun db =>
    let queryset := get_queryset query_params db in
    match paginate_queryset pagination_class queryset query_params with
    | inl e => (Raised e, db)
    | inr (Some page) =>
        (Returned (get_paginated_response page (page_rows page)), db)
    | inr None =>
        match queryset with
        | QuerySet rows => (Returned (Response_ok (BReviews rows)), db)
        | ResponseObj _ => (Raised ContentNotRenderedError, db)
        end
    end.

Definition as_view_list (request_user : option User)
    (query_params : gmap string string) : Handler :=
  dispatch permission_classes request_user (fun _ => list query_params).

End ReviewViewSet.

Module UserUpdateView.

Definition permission_classes : list Permission := [IsAuthenticated].

(** [request.user] while the handler runs: the row, whose three attributes
    that the handler assigns from the body hold whatever value the body
    held. *)
Record UserObject : Type := mkUserObject {
  o_id : Z;
  o_username : string;
  o_password : string;
  o_email : JSON;
  o_first_name : JSON;
  o_last_name : JSON;
  o_is_staff : bool
}.

Definition of_row (u : User) : UserObject :=
  mkUserObject (user_id u) (username u) (password u) (JString (email u))
    (JString (first_name u)) (JString (last_name u)) (is_staff u).

Definition set_email (v : JSON) (o : UserObject) : UserObject :=
  mkUserObject (o_id o) (o_username o) (o_password o) v (o_first_name o)
    (o_last_name o) (o_is_staff o).
Definition set_password (v : string) (o : UserObject) : UserObject :=
  mkUserObject (o_id o) (o_username o) v (o_email o) (o_first_name o)
    (o_last_name o) (o_is_staff o).
Definition set_first_name (v : JSON) (o : UserObject) : UserObject :=
  mkUserObject (o_id o) (o_username o) (o_password o) (o_email o) v
    (o_last_name o) (o_is_staff o).
Definition set_last_name (v : JSON) (o : UserObject) : UserObject :=
  mkUserObject (o_id o) (o_username o) (o_password o) (o_email o)
    (o_first_name o) v (o_is_staff o).

(** [CharField.get_prep_value]: a text is written as it is, [None] as
    NULL, any other value as its [str()]. *)
Definition get_prep_value (v : JSON) : option string :=
  match v with
  | JString s => Some s
  | JNull => None
  | JOther str => Some str
  end.

Section handlers.
Context `{!Auth} `{!External}.

(** [make_password(data['password'])] *)
Definition hash_password (v : JSON) : Exn + string :=
  match v with
  | JString s => inr (make_password s)
  | _ => make_password_nontext v
  end.

(** One text column in the UPDATE that [save] runs: NULL violates the
    NOT NULL constraint of the column, and a text is the engine's to
    refuse. *)
Definition column (name : string) (v : JSON) : Exn + string :=
  match get_prep_value v with
  | None => inl IntegrityError
  | Some s =>
      match column_fault name s with
      | Some e => inl e
      | None => inr s
      end
  end.

(** [user.save()]: every column of the row is written, in the order of
    the table; the row is stored when no column is at fault. *)
Definition save (o : UserObject) (db : DB) : Exn + DB :=
  match column "password" (JString (o_password o)) with
  | inl e => inl e
  | inr pw =>
  match column "username" (JString (o_username o)) with
  | inl e => inl e
  | inr un =>
  match column "first_name" (o_first_name o) with
  | inl e => inl e
  | inr fn =>
  match column "last_name" (o_last_name o) with
  | inl e => inl e
  | inr ln =>
  match column "email" (o_email o) with
  | inl e => inl e
  | inr em =>
      inr (User_save (mkUser (o_id o) un pw em fn ln (o_is_staff o)) db)
  end end end end end.

(** [put]: the four conditional assignments, of which the one of the
    password can raise, then [save].  The body is a parsed JSON object. *)
Definition put (data : gmap string JSON) (user : User) : Handler :=
  fun db =>
    let user := of_row user in
    let user := match data !! "email" with
                | Some v => set_email v user
                | None => user
                end in
    match (match data !! "password" with
           | Some v =>
               match hash_password v with
               | inr h => inr (set_password h user)
               | inl e => inl e
               end
           | None => inr user
           end) with
    | inl e => (Raised e, db)
    | inr user =>
        let user := match data !! "first_name" with
                    | Some v => set_first_name v user
                    | None => user
                    end in
        let user := match data !! "last_name" with
                    | Some v => set_last_name v user
                    | None => user
                    end in
        match save user db with
        | inl e => (Raised e, db)
        | inr db' =>
            (Returned (Response_ok (BMessage "User updated successfully")),
             db')
        end
    end.

Definition as_view_put (request_user : option User)
    (data : gmap string JSON) : Handler :=
  dispatch permission_classes request_user (as_user (put data)).
End handlers.

End UserUpdateView.

Module LoginView.

Definition permission_classes : list Permission := [AllowAny].

Section handlers.
Context `{!Auth}.

(** [post]; the fields of the request body are text, and [data.get] of a
    field that is not there is [None]. *)
Definition post (data : gmap string string) : Handler :=
  fun db =>
    let username := data !! "username" in
    let password := data !! "password" in
    if negb (Py.truthy_opt username) || negb (Py.truthy_opt password)
    then (Returned (mkResponse
            (BError "Username and password are required")
            HTTP_400_BAD_REQUEST), db)
    else
      match authenticate db username password with
      | Some user =>
          let refresh := RefreshToken_for_user user in
          (Returned (Response_ok
             (BTokens (refresh_str refresh) (access_token_str refresh))),
           db)
      | None =>
          (Returned (mkResponse (BError "Invalid credentials")
             HTTP_401_UNAUTHORIZED), db)
      end.

Definition as_view_post (request_user : option User)
    (data : gmap string string) : Handler :=
  dispatch permission_classes request_user (fun _ => post data).
End handlers.

End LoginView.

(** [class MovieViewSet(viewsets.ModelViewSet)]: the class gives the
    queryset, the serializer, the permission classes and the search filter;
    the actions are those of the framework's mixins. *)
Module MovieViewSet.

Definition permission_classes : list Permission := [IsAuthenticated].

(** [get_object]: the row with this primary key among
    [filter_queryset(get_queryset())], or [Http404]. *)
Definition get_object (query_params : gmap string string) (pk : Z)
    (db : DB) : Exn + Movie :=
  match List.filter (fun m => movie_id m =? pk)
          (search_movies query_params (movies db)) with
  | m :: _ => inr m
  | [] => inl (NotFound "Not found.")
  end.

Section actions.
Context `{!Schema}.

(** [CreateModelMixin.create] *)
Definition create (data : gmap string Value) : Handler :=
  fun db =>
    match MovieSerializer_is_valid db None data with
    | inl errs => (Raised (ValidationError errs), db)
    | inr a =>
        let '(m, db') := MovieSerializer_create a db in
        (Returned (mkResponse (BMovie m) HTTP_201_CREATED), db')
    end.

(** [UpdateModelMixin.update] *)
Definition update (query_params : gmap string string) (pk : Z)
    (data : gmap string Value) : Handler :=
  fun db =>
    match get_object query_params pk db with
    | inl e => (Raised e, db)
    | inr instance =>
        match MovieSerializer_is_valid db (Some instance) data with
        | inl errs => (Raised (ValidationError errs), db)
        | inr a =>
            let '(m, db') := MovieSerializer_update instance a db in
            (Returned (Response_ok (BMovie m)), db')
        end
    end.

(** [DestroyModelMixin.destroy] *)
Definition destroy (query_params : gmap string string) (pk : Z)
  : Handler :=
  fun db =>
    match get_object query_params pk db with
    | inl e => (Raised e, db)
    | inr instance =>
        (Returned (mkResponse BNone HTTP_204_NO_CONTENT),
         Movie_delete instance db)
    end.

Definition as_view_create (request_user : option User)
    (data : gmap string Value) : Handler :=
  dispatch permission_classes request_user (fun _ => create data).

Definition as_view_update (request_user : option User)
    (query_params : gmap string string) (pk : Z)
    (data : gmap string Value) : Handler :=
  dispatch permission_classes request_user
    (fun _ => update query_params pk data).

Definition as_view_destroy (request_user : option User)
    (query_params : gmap string string) (pk : Z) : Handler :=
  dispatch permission_classes request_user
    (fun _ => destroy query_params pk).
End actions.

End MovieViewSet.

Module MovieListCreateView.

Definition permission_classes : list Permission := [IsAdminUser].

Section handlers.
Context `{!Schema}.

Definition get : Handler :=
  fun db => (Returned (Response_ok (BMovies (movies db))), db).

Definition post (data : gmap string Value) : Handler :=
  fun db =>
    match MovieSerializer_is_valid db None data with
    | inr a =>
        let '(m, db') := MovieSerializer_create a db in
        (Returned (mkResponse (BMovie m) HTTP_201_CREATED), db')
    | inl errs => (Returned (mkResponse (BErrors errs) HTTP_400_BAD_REQUEST), db)
    end.

Definition as_view_get (request_user : option User) : Handler :=
  dispatch permission_classes request_user (fun _ => get).

Definition as_view_post (request_user : option User)
    (data : gmap string Value) : Handler :=
  dispatch permission_classes request_user (fun _ => post data).
End handlers.

End MovieListCreateView.

Module MovieDetailView.

Definition permission_classes : list Permission := [IsAdminUser].

Section handlers.
Context `{!Schema}.

Definition get (movie_id : Z) : Handler :=
  fun db =>
    match Movie_objects_get db movie_id with
    | inl e => (Raised e, db)
    | inr movie => (Returned (Response_ok (BMovie movie)), db)
    end.

Definition put (movie_id : Z) (data : gmap string Value) : Handler :=
  fun db =>
    match Movie_objects_get db movie_id with
    | inl e => (Raised e, db)
    | inr movie =>
        match MovieSerializer_is_valid db (Some movie) data with
        | inr a =>
            let '(m, db') := MovieSerializer_update movie a db in
            (Returned (Response_ok (BMovie m)), db')
        | inl errs =>
            (Returned (mkResponse (BErrors errs) HTTP_400_BAD_REQUEST), db)
        end
    end.

Definition delete (movie_id : Z) : Handler :=
  fun db =>
    match Movie_objects_get db movie_id with
    | inl e => (Raised e, db)
    | inr movie =>
        (Returned (Response_ok (BMessage "Movie deleted successfully")),
         Movie_delete movie db)
    end.

Definition as_view_get (request_user : option User) (movie_id : Z)
  : Handler :=
  dispatch permission_classes request_user (fun _ => get movie_id).

Definition as_view_put (request_user : option User) (movie_id : Z)
    (data : gmap string Value) : Handler :=
  dispatch permission_classes request_user (fun _ => put movie_id data).

Definition as_view_delete (request_user : option User) (movie_id : Z)
  : Handler :=
  dispatch permission_classes request_user (fun _ => delete movie_id).
End handlers.

End MovieDetailView.

Module ReviewListCreateView.

Definition permission_classes : list Permission := [IsAuthenticated].

(** [get], up to the pagination: the reviews of the movie after the
    filters, or the response of one of the two early returns. *)
Definition filtered (movie_id : Z) (query_params : gmap string string)
    (db : DB) : Response + list Review :=
  let reviews := filter_movie_id movie_id (reviews db) in
  let movie_title := query_params !! "movie_title" in
  let rating := query_params !! "rating" in
  let reviews :=
    match movie_title with
    | Some t =>
        if Py.truthy t then filter_movie_title db t reviews else reviews
    | None => reviews
    end in
  match rating with
  | Some s =>
      if Py.truthy s then
        match Py.int s with
        | Some r =>
            if (1 <=? r) && (r <=? 5)
            then inr (filter_rating r reviews)
            else inl rating_out_of_range
        | None => inl rating_not_an_integer
        end
      else inr reviews
  | None => inr reviews
  end.

(** [get]: the filters, then the pagination of what they left. *)
Definition get (movie_id : Z) (query_params : gmap string string)
  : Handler :=
  fun db =>
    match filtered movie_id query_params db with
    | inl response => (Returned response, db)
    | inr reviews =>
        match paginate_queryset ReviewPagination (QuerySet reviews)
                query_params with
        | inl e => (Raised e, db)
        | inr (Some result_page) =>
            (Returned (get_paginated_response result_page
                         (page_rows result_page)), db)
        | inr None =>
            (Raised (AttributeError
               "'ReviewPagination' object has no attribute 'page'"), db)
        end
    end.

Section handlers.
Context `{!Schema}.

(** [post]: the path's movie and the acting user's id are written into
    the request body, a parsed JSON object, before it is validated. *)
Definition post (movie_id : Z) (data : gmap string Value) (now : Z)
    (request_user : User) : Handler :=
  fun db =>
    let data := <["movie" := VInt movie_id]> data in
    let data := <["user" := VInt (user_id request_user)]> data in
    match ReviewSerializer_is_valid db None data with
    | inr a =>
        match ReviewSerializer_create a now db with
        | inr (r, db') =>
            (Returned (mkResponse (BReview r) HTTP_201_CREATED), db')
        | inl e => (Raised e, db)
        end
    | inl errs =>
        (Returned (mkResponse (BErrors errs) HTTP_400_BAD_REQUEST), db)
    end.

Definition as_view_get (request_user : option User) (movie_id : Z)
    (query_params : gmap string string) : Handler :=
  dispatch permission_classes request_user
    (fun _ => get movie_id query_params).

Definition as_view_post (request_user : option User) (movie_id : Z)
    (data : gmap string Value) (now : Z) : Handler :=
  dispatch permission_classes request_user
    (as_user (post movie_id data now)).
End handlers.

End ReviewListCreateView.

Module ReviewDetailView.

Definition permission_classes : list Permission := [IsAuthenticated].

Section handlers.
Context `{!Schema}.

Definition put (review_id : Z) (data : gmap string Value)
    (request_user : User) : Handler :=
  fun db =>
    match Review_objects_get db review_id request_user with
    | inl e => (Raised e, db)
    | inr review =>
        match ReviewSerializer_is_valid db (Some review) data with
        | inr a =>
            match ReviewSerializer_update review a db with
            | inr (r, db') => (Returned (Response_ok (BReview r)), db')
            | inl e => (Raised e, db)
            end
        | inl errs =>
            (Returned (mkResponse (BErrors errs) HTTP_400_BAD_REQUEST), db)
        end
    end.

Definition delete (review_id : Z) (request_user : User) : Handler :=
  fun db =>
    match Review_objects_get db review_id request_user with
    | inl e => (Raised e, db)
    | inr review =>
        (Returned (Response_ok (BMessage "Review deleted successfully")),
         Review_delete review db)
    end.

Definition as_view_put (request_user : option User) (review_id : Z)
    (data : gmap string Value) : Handler :=
  dispatch permission_classes request_user (as_user (put review_id data)).

Definition as_view_delete (request_user : option User) (review_id : Z)
  : Handler :=
  dispatch permission_classes request_user (as_user (delete review_id)).
End handlers.

End ReviewDetailView.

Module CreateMovieReviewView.

Definition permission_classes : list Permission := [IsAuthenticated].

Section handlers.
Context `{!Schema}.

Definition post (movie_id : Z) (data : gmap string Value) (now : Z)
    (request_user : User) : Handler :=
  fun db =>
    match Movie_objects_get db movie_id with
    | inl (DoesNotExist _) =>
        (Returned (mkResponse (BError "Movie not found.")
           HTTP_404_NOT_FOUND), db)
    | inl e => (Raised e, db)
    | inr movie =>
        match ReviewSerializer_is_valid db None data with
        | inr a =>
            match ReviewSerializer_create
                    (with_kwargs a (Models.movie_id movie)
                       (user_id request_user)) now db with
            | inr (r, db') =>
                (Returned (mkResponse (BReview r) HTTP_201_CREATED), db')
            | inl e => (Raised e, db)
            end
        | inl errs =>
            (Returned (mkResponse (BErrors errs) HTTP_400_BAD_REQUEST), db)
        end
    end.

Definition as_view_post (request_user : option User) (movie_id : Z)
    (data : gmap string Value) (now : Z) : Handler :=
  dispatch permission_classes request_user
    (as_user (post movie_id data now)).
End handlers.

End CreateMovieReviewView.

(** [class UserDeleteView(APIView)] *)
Module UserDeleteView.

Definition permission_classes : list Permission := [IsAuthenticated].

(** Modelled from the spec: [reviews/models.py], which fixes what
    [user.delete()] does to the reviews of the user, is missing; they go
    with the user (a review belongs to exactly one user). *)
Definition User_delete (u : User) (db : DB) : DB :=
  mkDB
    (List.filter (fun x => negb (user_id x =? user_id u)) (users db))
    (movies db)
    (List.filter (fun r => negb (user r =? user_id u)) (reviews db)).

(** [delete]: the message is sent with status 204. *)
Definition delete (user : User) : Handler :=
  fun db =>
    (Returned (mkResponse (BMessage "User deleted successfully")
       HTTP_204_NO_CONTENT),
     User_delete user db).

Definition as_view_delete (request_user : option User) : Handler :=
  dispatch permission_classes request_user (as_user delete).

End UserDeleteView.

(** ** A schema and an authentication library to run the views on *)

Module Sample.

(** A relation given by primary key: a number, or its decimal text. *)
Definition pk_field (stored : Z -> bool) (name : string)
    (d : gmap string Value) : Errors + Z :=
  match d !! name with
  | Some (VInt k) =>
      if stored k then inr k
      else inl [(name, "Invalid pk - object does not exist.")]
  | Some (VStr _) => inl [(name, "Incorrect type. Expected pk value.")]
  | None => inl [(name, "This field is required.")]
  end.

Definition rating_field (d : gmap string Value) : Errors + Z :=
  match d !! "rating" with
  | Some (VInt r) =>
      if (1 <=? r) && (r <=? 5) then inr r
      else inl [("rating", "Rating must be between 1 and 5.")]
  | Some (VStr s) =>
      match Py.int s with
      | Some r =>
          if (1 <=? r) && (r <=? 5) then inr r
          else inl [("rating", "Rating must be between 1 and 5.")]
      | None => inl [("rating", "A valid integer is required.")]
      end
  | None => inl [("rating", "This field is required.")]
  end.

Definition text_field (name : string) (d : gmap string Value)
  : Errors + option string :=
  match d !! name with
  | Some (VStr s) => inr (Some s)
  | Some (VInt _) => inl [(name, "Not a valid string.")]
  | None => inr None
  end.

(** Modelled from the spec: [reviews/serializers.py] is missing.  A review
    has a rating in [1,5] and a free text; with
    [read_only_relations] the movie and the user are not taken from the
    body, otherwise both are required primary keys of stored rows. *)
Definition review_is_valid (read_only_relations : bool) (db : DB)
    (inst : option Review) (d : gmap string Value) : Errors + ReviewAttrs :=
  match rating_field d, text_field "body" d with
  | inr r, inr b =>
      if read_only_relations then inr (mkReviewAttrs None None (Some r) b)
      else
        match pk_field (exists_movie db) "movie" d,
              pk_field (exists_user db) "user" d with
        | inr m, inr u => inr (mkReviewAttrs (Some m) (Some u) (Some r) b)
        | inl e, _ => inl e
        | _, inl e => inl e
        end
  | inl e, _ => inl e
  | _, inl e => inl e
  end.

(** Modelled from the spec: a movie has a title, which is required, and a
    genre. *)
Definition movie_is_valid (db : DB) (inst : option Movie)
    (d : gmap string Value) : Errors + MovieAttrs :=
  match text_field "title" d, text_field "genre" d with
  | inr (Some t), inr g => inr (mkMovieAttrs (Some t) g)
  | inr None, _ => inl [("title", "This field is required.")]
  | inl e, _ => inl e
  | _, inl e => inl e
  end.

Definition review_user_pk (ro : bool) :
  forall db inst d a u k,
    review_is_valid ro db inst d = inr a ->
    a_user a = Some u -> d !! "user" = Some (VInt k) -> u = k.
Proof.
  intros db inst d a u k. unfold review_is_valid, pk_field.
  intros Hv Hu Hk. rewrite Hk in Hv.
  destruct (rating_field d), (text_field "body" d), ro; try discriminate;
    [ inversion Hv; subst a; discriminate | ].
  destruct (d !! "movie") as [[m|]|]; try discriminate;
    destruct (exists_movie db m), (exists_user db k); try discriminate.
  inversion Hv; subst a. simpl in Hu. congruence.
Defined.

Definition review_movie_pk (ro : bool) :
  forall db inst d a m k,
    review_is_valid ro db inst d = inr a ->
    a_movie a = Some m -> d !! "movie" = Some (VInt k) -> m = k.
Proof.
  intros db inst d a m k. unfold review_is_valid, pk_field.
  intros Hv Hm Hk. rewrite Hk in Hv.
  destruct (rating_field d), (text_field "body" d), ro; try discriminate;
    [ inversion Hv; subst a; discriminate | ].
  destruct (exists_movie db k); try discriminate.
  destruct (d !! "user") as [[u|]|]; try discriminate.
  destruct (exists_user db u); try discriminate.
  inversion Hv; subst a. simpl in Hm. congruence.
Defined.

Definition schema (read_only_relations : bool) : Schema :=
  {| MovieSerializer_is_valid := movie_is_valid;
     ReviewSerializer_is_valid := review_is_valid read_only_relations;
     ReviewSerializer_user_pk := review_user_pk read_only_relations;
     ReviewSerializer_movie_pk := review_movie_pk read_only_relations |}.

Definition hash (raw : string) : string := "pbkdf2$" ++ raw.

Definition check_credentials (db : DB) (name pw : option string)
  : option User :=
  match name, pw with
  | Some n, Some p =>
      List.find (fun u => String.eqb (username u) n
                          && String.eqb (password u) (hash p)) (users db)
  | _, _ => None
  end.

Definition tokens (u : User) : RefreshToken :=
  mkRefreshToken ("refresh." ++ username u) ("access." ++ username u).

Definition tokens_refresh (u : User) : refresh_str (tokens u) <> "".
Proof. discriminate. Defined.

Definition tokens_access (u : User) : access_token_str (tokens u) <> "".
Proof. discriminate. Defined.

Definition auth : Auth :=
  {| authenticate := check_credentials;
     make_password := hash;
     RefreshToken_for_user := tokens;
     refresh_str_nonempty := tokens_refresh;
     access_token_str_nonempty := tokens_access |}.

(** A hasher that gives an unusable password for [null] and refuses what
    is neither [null] nor a text, and an engine that refuses a text that is
    longer than its column is wide. *)
Definition hash_nontext (v : JSON) : Exn + string :=
  match v with
  | JString s => inr (hash s)
  | JNull => inr "!unusable"
  | JOther _ => inl (TypeError "Password must be a string or bytes.")
  end.

Definition width (column : string) : nat :=
  if String.eqb column "email" then 254%nat
  else if String.eqb column "password" then 128%nat
  else 150%nat.

Definition too_long (column text : string) : option Exn :=
  if (width column <? String.length text)%nat then Some DataError else None.

Definition external : External :=
  {| make_password_nontext := hash_nontext;
     column_fault := too_long |}.

(** Two users, the first one staff; two movies; three reviews. *)
Definition alice : User :=
  mkUser 1 "alice" (hash "wonderland") "alice@example.org" "Alice" "A" true.
Definition bob : User :=
  mkUser 2 "bob" (hash "builder") "bob@example.org" "Bob" "B" false.

Definition matrix : Movie := mkMovie 1 "The Matrix" "sci-fi".
Definition heat : Movie := mkMovie 2 "Heat" "crime".

Definition review1 : Review := mkReview 1 1 1 5 "great" 100.
Definition review2 : Review := mkReview 2 1 2 3 "fine" 101.
Definition review3 : Review := mkReview 3 2 2 5 "tense" 102.

Definition db0 : DB :=
  mkDB [alice; bob] [matrix; heat] [review1; review2; review3].

End Sample.

(** ** Vocabulary of the statements *)


(** The answer to a page number that the paginator refuses. *)
Definition invalid_page : Outcome :=
  Returned (mkResponse (BDetail "Invalid page.") HTTP_404_NOT_FOUND).

(** What a review-creation request by [u] under the path's movie may do to
    the tables: it answers 201 with the review it appended, whose user is
    [u] and whose movie is the path's, or it answers something else and
    stores nothing. *)
Definition creates_for (u : User) (movie_id : Z) (db : DB)
    (res : Outcome * DB) : Prop :=
  (exists rv,
     fst res = Returned (mkResponse (BReview rv) HTTP_201_CREATED)
     /\ snd res = mkDB (users db) (movies db) (reviews db ++ [rv])
     /\ user rv = user_id u
     /\ movie rv = movie_id)
  \/ (client_status (fst res) <> HTTP_201_CREATED /\ snd res = db).

(** The store takes the row of [u] as it stands, as it does every row
    that was read from it. *)
Definition storable `{!External} (u : User) : Prop :=
  column_fault "password" (password u) = None
  /\ column_fault "username" (username u) = None
  /\ column_fault "first_name" (first_name u) = None
  /\ column_fault "last_name" (last_name u) = None
  /\ column_fault "email" (email u) = None.

(** What the body holds for a text column: nothing, or a value other than
    [null] whose text the store takes for the column. *)
Definition takes `{!External} (column : string) (v : option JSON) : Prop :=
  match v with
  | None => True
  | Some (JString s) | Some (JOther s) => column_fault column s = None
  | Some JNull => False
  end.

(** What the body holds for the password: nothing, or a text whose hash
    the store takes. *)
Definition takes_password `{!Auth} `{!External} (v : option JSON) : Prop :=
  match v with
  | None => True
  | Some (JString s) => column_fault "password" (make_password s) = None
  | Some _ => False
  end.

(** A text column holds [new] after a body that had [v] for it: the text
    of [v], or [old] when the body had nothing for it. *)
Definition written (v : option JSON) (old new : string) : Prop :=
  match v with
  | None => new = old
  | Some (JString s) | Some (JOther s) => new = s
  | Some JNull => False
  end.

(** The password column holds [new] after a body that had [v] for it: the
    hash of [v], or [old] when the body had nothing for it. *)
Definition password_written `{!Auth} `{!External}
    (v : option JSON) (old new : string) : Prop :=
  match v with
  | None => new = old
  | Some (JString s) => new = make_password s
  | Some w => make_password_nontext w = inr new
  end.

(** The user object that [save] receives in a profile update, given the
    hash that the password step left. *)
Definition assigned (data : gmap string JSON) (u : User) (pw : string)
  : UserUpdateView.UserObject :=
  UserUpdateView.mkUserObject (user_id u) (username u) pw
    (default (JString (email u)) (data !! "email"))
    (default (JString (first_name u)) (data !! "first_name"))
    (default (JString (last_name u)) (data !! "last_name"))
    (is_staff u).

(** The request did not succeed and changed nothing. *)
Definition failed_without_change (db : DB) (res : Outcome * DB) : Prop :=
  client_status (fst res) <> 200 /\ snd res = db.

(** The query parameter [key], when the request has it, is ASCII text. *)
Definition ascii_param (query_params : gmap string string) (key : string)
  : bool :=
  match query_params !! key with
  | Some v => Py.isascii v
  | None => true
  end.



(** * Properties *)

(** ** Pagination *)

Section pagination_facts.
Implicit Types (qp : gmap string string) (rows : list Review).

Lemma positive_int_strict s cutoff n :
  positive_int s true (Some cutoff) = Some n ->
  0 < cutoff -> 1 <= n <= cutoff.
Proof.
  unfold positive_int. destruct (Py.int s) as [ret|]; [|discriminate].
  destruct (ret <? 0) eqn:Hneg; simpl; [discriminate|].
  destruct (ret =? 0) eqn:Hz; simpl; [discriminate|].
  destruct (cutoff =? 0) eqn:Hc; intros [= <-] Hpos; lia.
Qed.

Lemma get_page_size_bounds qp :
  1 <= get_page_size ReviewPagination qp <= 100.
Proof.
  unfold get_page_size. simpl.
  destruct (qp !! "page_size") as [s|]; [|lia].
  destruct (positive_int s true (Some 100)) as [n|] eqn:Hn; [|lia].
  apply positive_int_strict in Hn; lia.
Qed.

(** The paginator reads the query string at [page] and at the page-size
    parameter only. *)
Lemma paginate_queryset_ext cls ol qp qp' :
  qp !! page_query_param = qp' !! page_query_param ->
  (forall p, page_size_query_param cls = Some p -> qp !! p = qp' !! p) ->
  paginate_queryset cls ol qp = paginate_queryset cls ol qp'.
Proof.
  intros Hpage Hsize. unfold paginate_queryset, get_page_number, get_page_size.
  rewrite Hpage. destruct (page_size_query_param cls) as [p|]; [|reflexivity].
  rewrite (Hsize p eq_refl). reflexivity.
Qed.

Lemma slice_length rows bottom top :
  0 <= bottom -> Z.of_nat (length (slice rows bottom top)) <= Z.max 0 (top - bottom).
Proof.
  intros Hb. unfold slice. rewrite length_take. lia.
Qed.

Lemma slice_subset rows bottom top rv :
  rv ∈ slice rows bottom top -> rv ∈ rows.
Proof.
  unfold slice. intros H.
  apply (subseteq_take (Z.to_nat (top - bottom))) in H.
  by apply (subseteq_drop (Z.to_nat bottom)) in H.
Qed.

(** A page that the paginator gives holds at most [per_page] rows, all of
    them rows of the queryset. *)
Lemma page_rows_bound rows per_page pn p :
  0 < per_page ->
  DRF.page (QuerySet rows) per_page pn = inr (inr p) ->
  Z.of_nat (length (page_rows p)) <= per_page
  /\ (forall rv, rv ∈ page_rows p -> rv ∈ rows)
  /\ page_count p = Z.of_nat (length rows).
Proof.
  intros Hpos. unfold DRF.page, validate_number, num_pages. simpl.
  destruct (match pn with PInt n => Some n | PStr s => Py.int s end) as [n|];
    [|discriminate].
  destruct (n <? 1) eqn:Hn; [discriminate|].
  destruct ((_ <? n) && _); [discriminate|].
  intros [= <-]. simpl. apply Z.ltb_ge in Hn. split; [|split].
  - pose proof (slice_length rows ((n - 1) * per_page)
      (if Z.of_nat (length rows) <=? (n - 1) * per_page + per_page
       then Z.of_nat (length rows) else (n - 1) * per_page + per_page)) as Hs.
    destruct (Z.of_nat (length rows) <=? (n - 1) * per_page + per_page) eqn:Hc;
      [apply Z.leb_le in Hc | apply Z.leb_gt in Hc]; nia.
  - intros rv. apply slice_subset.
  - reflexivity.
Qed.

Lemma paginate_queryset_rows rows qp p :
  paginate_queryset ReviewPagination (QuerySet rows) qp = inr (Some p) ->
  Z.of_nat (length (page_rows p)) <= get_page_size ReviewPagination qp
  /\ (forall rv, rv ∈ page_rows p -> rv ∈ rows)
  /\ page_count p = Z.of_nat (length rows).
Proof.
  pose proof (get_page_size_bounds qp) as Hb.
  unfold paginate_queryset.
  destruct (get_page_size ReviewPagination qp =? 0) eqn:Hz; [lia|].
  destruct (get_page_number _ _ _) as [e|pn]; [discriminate|].
  destruct (DRF.page _ _ pn) as [e|[bad|p']] eqn:Hp; try discriminate.
  intros [= <-]. eapply page_rows_bound; [lia | exact Hp].
Qed.

(** Pagination is never off for [ReviewPagination]. *)
Lemma paginate_queryset_on ol qp :
  paginate_queryset ReviewPagination ol qp <> inr None.
Proof.
  pose proof (get_page_size_bounds qp) as Hb.
  unfold paginate_queryset.
  destruct (get_page_size ReviewPagination qp =? 0) eqn:Hz; [lia|].
  destruct (get_page_number _ _ _) as [e|pn]; [discriminate|].
  destruct (DRF.page _ _ pn) as [e|[bad|p']]; discriminate.
Qed.

End pagination_facts.

(** ** Dispatch *)

Lemma dispatch_authenticated perms (u : User) (h : option User -> Handler) db :
  forallb (fun p => has_permission p (Some u)) perms = true ->
  dispatch perms (Some u) h db =
    (match fst (h (Some u) db) with
     | Raised e => handle_exception e
     | Returned r => Returned r
     end, snd (h (Some u) db)).
Proof.
  intros Hp. unfold dispatch, check_permissions. rewrite Hp.
  destruct (h (Some u) db) as [[r|e] db']; reflexivity.
Qed.

Lemma dispatch_refused perms (u : User) (h : option User -> Handler) db :
  forallb (fun p => has_permission p (Some u)) perms = false ->
  dispatch perms (Some u) h db =
    (Returned (mkResponse
       (BDetail "You do not have permission to perform this action.")
       HTTP_403_FORBIDDEN), db).
Proof.
  intros Hp. unfold dispatch, check_permissions. rewrite Hp. reflexivity.
Qed.

Lemma dispatch_ext perms ou (h h' : option User -> Handler) db :
  h ou db = h' ou db -> dispatch perms ou h db = dispatch perms ou h' db.
Proof. intros He. unfold dispatch. rewrite He. reflexivity. Qed.

(** ** The review query *)

Ltac lookups :=
  rewrite ?lookup_insert_eq, ?lookup_delete_eq;
  rewrite ?lookup_insert_ne, ?lookup_delete_ne by discriminate.

Lemma paginate_queryset_insert ol (qp : gmap string string) k v :
  k <> "page" -> k <> "page_size" ->
  paginate_queryset ReviewPagination ol (<[k:=v]> qp) =
  paginate_queryset ReviewPagination ol (delete k qp).
Proof.
  intros Hpage Hsize. apply paginate_queryset_ext.
  - unfold page_query_param. by rewrite lookup_insert_ne, lookup_delete_ne.
  - intros p [= <-]. by rewrite lookup_insert_ne, lookup_delete_ne.
Qed.

Lemma get_queryset_empty_rating (qp : gmap string string) db :
  ReviewViewSet.get_queryset (<["rating":=""]> qp) db =
  ReviewViewSet.get_queryset (delete "rating" qp) db.
Proof. unfold ReviewViewSet.get_queryset. lookups. reflexivity. Qed.

Lemma get_queryset_empty_movie_title (qp : gmap string string) db :
  ReviewViewSet.get_queryset (<["movie_title":=""]> qp) db =
  ReviewViewSet.get_queryset (delete "movie_title" qp) db.
Proof. unfold ReviewViewSet.get_queryset. lookups. reflexivity. Qed.

Lemma list_empty_rating (qp : gmap string string) db :
  ReviewViewSet.list (<["rating":=""]> qp) db =
  ReviewViewSet.list (delete "rating" qp) db.
Proof.
  unfold ReviewViewSet.list, ReviewViewSet.pagination_class.
  rewrite get_queryset_empty_rating.
  by rewrite paginate_queryset_insert.
Qed.

Lemma list_empty_movie_title (qp : gmap string string) db :
  ReviewViewSet.list (<["movie_title":=""]> qp) db =
  ReviewViewSet.list (delete "movie_title" qp) db.
Proof.
  unfold ReviewViewSet.list, ReviewViewSet.pagination_class.
  rewrite get_queryset_empty_movie_title.
  by rewrite paginate_queryset_insert.
Qed.

Lemma get_empty_rating movie_id (qp : gmap string string) db :
  ReviewListCreateView.get movie_id (<["rating":=""]> qp) db =
  ReviewListCreateView.get movie_id (delete "rating" qp) db.
Proof.
  unfold ReviewListCreateView.get, ReviewListCreateView.filtered. lookups.
  simpl. by rewrite paginate_queryset_insert.
Qed.

Lemma get_empty_movie_title movie_id (qp : gmap string string) db :
  ReviewListCreateView.get movie_id (<["movie_title":=""]> qp) db =
  ReviewListCreateView.get movie_id (delete "movie_title" qp) db.
Proof.
  unfold ReviewListCreateView.get, ReviewListCreateView.filtered. lookups.
  simpl.
  destruct (qp !! "rating") as [s|]; [|by rewrite paginate_queryset_insert].
  destruct (Py.truthy s); [|by rewrite paginate_queryset_insert].
  destruct (Py.int s) as [r|]; [|reflexivity].
  destruct ((1 <=? r) && (r <=? 5)); [|reflexivity].
  by rewrite paginate_queryset_insert.
Qed.

(** C9. On both review-list endpoints a [rating] or [movie_title] query
    parameter that is the empty string is treated as absent: the answer is
    the one of the same request without the parameter, so no filter is
    applied for it and no validation error is raised, although [int] of
    the empty string is a [ValueError]. *)
Theorem C9_empty_filter_parameter_is_absent
    (request_user : option User) (movie_id : Z)
    (qp : gmap string string) (db : DB) :
  Py.int "" = None
  /\ (exists rows,
        ReviewViewSet.get_queryset (<["rating":=""]> qp) db = QuerySet rows)
  /\ ReviewViewSet.as_view_list request_user (<["rating":=""]> qp) db =
     ReviewViewSet.as_view_list request_user (delete "rating" qp) db
  /\ ReviewViewSet.as_view_list request_user (<["movie_title":=""]> qp) db =
     ReviewViewSet.as_view_list request_user (delete "movie_title" qp) db
  /\ ReviewListCreateView.as_view_get request_user movie_id
       (<["rating":=""]> qp) db =
     ReviewListCreateView.as_view_get request_user movie_id
       (delete "rating" qp) db
  /\ ReviewListCreateView.as_view_get request_user movie_id
       (<["movie_title":=""]> qp) db =
     ReviewListCreateView.as_view_get request_user movie_id
       (delete "movie_title" qp) db.
Proof.
  split; [reflexivity|]. split.
  { unfold ReviewViewSet.get_queryset. lookups. simpl. eauto. }
  unfold ReviewViewSet.as_view_list, ReviewListCreateView.as_view_get.
  repeat split; apply dispatch_ext.
  - apply list_empty_rating.
  - apply list_empty_movie_title.
  - apply get_empty_rating.
  - apply get_empty_movie_title.
Qed.

(** The movie-scoped list answers a non-empty rating that [int] refuses, or
    that lies outside 1..5, before it touches the paginator. *)
Lemma get_rating_not_an_integer movie_id (qp : gmap string string) s db :
  qp !! "rating" = Some s -> s <> "" -> Py.int s = None ->
  ReviewListCreateView.get movie_id qp db = (Returned rating_not_an_integer, db).
Proof.
  intros Hs Hne Hint.
  unfold ReviewListCreateView.get, ReviewListCreateView.filtered. rewrite Hs.
  destruct s as [|c s']; [congruence|]. cbn [Py.truthy].
  by rewrite Hint.
Qed.

Lemma get_rating_out_of_range movie_id (qp : gmap string string) s r db :
  qp !! "rating" = Some s -> Py.int s = Some r -> r < 1 \/ 5 < r ->
  ReviewListCreateView.get movie_id qp db = (Returned rating_out_of_range, db).
Proof.
  intros Hs Hint Hout.
  unfold ReviewListCreateView.get, ReviewListCreateView.filtered. rewrite Hs.
  destruct s as [|c s']; [discriminate|]. cbn [Py.truthy].
  rewrite Hint.
  destruct ((1 <=? r) && (r <=? 5)) eqn:Hr; [lia|reflexivity].
Qed.

(** C2 (amended). For every non-empty rating query parameter of ASCII
    characters that fails to parse as an integer, or parses to a value
    outside [1,5], the movie-scoped review list answers 400 with the
    message that the rating must be an integer between 1 and 5,
    respectively between 1 and 5; the answer is the same whatever the
    tables hold, so the rating filter is not applied and no result set is
    computed. *)
Theorem C2_bad_rating_rejected_by_movie_scoped_list
    (u : User) (movie_id : Z) (qp : gmap string string) (s : string) :
  qp !! "rating" = Some s -> s <> "" -> Py.isascii s = true ->
  (Py.int s = None \/ exists r, Py.int s = Some r /\ (r < 1 \/ 5 < r)) ->
  exists resp,
    status resp = 400
    /\ (Py.int s = None -> resp = rating_not_an_integer)
    /\ (Py.int s <> None -> resp = rating_out_of_range)
    /\ forall db,
         ReviewListCreateView.as_view_get (Some u) movie_id qp db =
           (Returned resp, db).
Proof.
  intros Hs Hne _ Hbad.
  exists (match Py.int s with
          | None => rating_not_an_integer
          | Some _ => rating_out_of_range
          end).
  split; [by destruct (Py.int s)|].
  split; [by intros ->|]. split; [by destruct (Py.int s)|].
  intros db. unfold ReviewListCreateView.as_view_get.
  rewrite dispatch_authenticated by reflexivity.
  destruct Hbad as [Hn | (r & Hr & Hout)].
  - rewrite (get_rating_not_an_integer movie_id qp s db Hs Hne Hn).
    by rewrite Hn.
  - rewrite (get_rating_out_of_range movie_id qp s r db Hs Hr Hout).
    by rewrite Hr.
Qed.

Lemma C2_bad_rating_rejected_witness :
  exists resp,
    status resp = 400
    /\ ReviewListCreateView.as_view_get (Some Sample.bob) 1
         {["rating" := "abc"]} Sample.db0 = (Returned resp, Sample.db0).
Proof.
  destruct (C2_bad_rating_rejected_by_movie_scoped_list Sample.bob 1
              {["rating" := "abc"]} "abc")
    as (resp & Hst & _ & _ & Hget).
  - reflexivity.
  - discriminate.
  - reflexivity.
  - left. reflexivity.
  - exists resp. split; [exact Hst | apply Hget].
Defined.

(** The generic list with the same kind of rating: [get_queryset] returns
    the 400 response, [list] hands it to the paginator, and the request ends
    with the paginator's [TypeError], or with 404 when the page number is
    refused before the paginator counts. *)
Lemma list_bad_rating (u : User) (qp : gmap string string) s db :
  qp !! "rating" = Some s -> s <> "" ->
  (Py.int s = None \/ exists r, Py.int s = Some r /\ (r < 1 \/ 5 < r)) ->
  (exists resp, ReviewViewSet.get_queryset qp db = ResponseObj resp
                /\ status resp = 400)
  /\ (fst (ReviewViewSet.as_view_list (Some u) qp db)
        = Raised (TypeError "object of type 'Response' has no len()")
      \/ fst (ReviewViewSet.as_view_list (Some u) qp db) = invalid_page).
Proof.
  intros Hs Hne Hbad.
  assert (exists resp, ReviewViewSet.get_queryset qp db = ResponseObj resp
                       /\ status resp = 400) as (resp & Hq & Hst).
  { unfold ReviewViewSet.get_queryset. rewrite Hs.
    destruct s as [|c s']; [congruence|]. cbn [Py.truthy].
    destruct Hbad as [-> | (r & -> & Hout)]; [by eauto|].
    replace ((1 <=? r) && (r <=? 5)) with false by lia. by eauto. }
  split; [by eauto|].
  unfold ReviewViewSet.as_view_list.
  rewrite dispatch_authenticated by reflexivity.
  unfold ReviewViewSet.list, ReviewViewSet.pagination_class. rewrite Hq.
  unfold paginate_queryset.
  pose proof (get_page_size_bounds qp) as Hb.
  destruct (get_page_size ReviewPagination qp =? 0) eqn:Hz; [lia|].
  unfold get_page_number, num_pages. simpl.
  destruct (qp !! page_query_param) as [pg|];
    [destruct (Py.truthy pg); [destruct (bool_decide _)|]|];
    try (by left);
    unfold DRF.page, validate_number, num_pages; simpl.
  destruct (Py.int pg) as [n|]; [|by right].
  destruct (n <? 1); [by right | by left].
Qed.

(** C2 fails in two places.  The generic list hands the 400
    response of [get_queryset] to the paginator, which raises on it, and the
    movie-scoped list takes an empty rating, which does not parse, as no
    rating at all. *)
Lemma C2_counterexample :
  Py.int "abc" = None
  /\ ReviewViewSet.as_view_list (Some Sample.bob) {["rating" := "abc"]}
       Sample.db0
     = (Raised (TypeError "object of type 'Response' has no len()"),
        Sample.db0)
  /\ client_status
       (fst (ReviewViewSet.as_view_list (Some Sample.bob)
               {["rating" := "abc"]} Sample.db0)) <> 400
  /\ Py.int "" = None
  /\ ReviewListCreateView.as_view_get (Some Sample.bob) 1 {["rating" := ""]}
       Sample.db0
     = (Returned (mkResponse
          (BPage 2 None None [Sample.review1; Sample.review2]) 200),
        Sample.db0).
Proof. repeat split; vm_compute; congruence. Qed.

(** ** Filters *)

Lemma elem_of_List_filter {A} (f : A -> bool) (l : list A) (x : A) :
  x ∈ List.filter f l <-> x ∈ l /\ f x = true.
Proof. rewrite !list_elem_of_In. apply filter_In. Qed.



Lemma get_page_number_queryset (qp : gmap string string) rows per_page :
  exists pn, get_page_number qp (QuerySet rows) per_page = inr pn.
Proof.
  unfold get_page_number, num_pages. simpl.
  destruct (qp !! page_query_param) as [s|]; [|eauto].
  destruct (Py.truthy s); [|eauto].
  destruct (bool_decide _); eauto.
Qed.

Lemma page_queryset rows per_page pn :
  (exists bad, DRF.page (QuerySet rows) per_page pn = inr (inl bad))
  \/ exists p, DRF.page (QuerySet rows) per_page pn = inr (inr p).
Proof.
  unfold DRF.page, validate_number, num_pages. simpl.
  destruct (match pn with PInt n => Some n | PStr s => Py.int s end) as [n|];
    [|eauto].
  destruct (n <? 1); [eauto|].
  destruct ((_ <? n) && _); eauto.
Qed.

(** What the paginator makes of a queryset: a page of it, or [NotFound]. *)
Lemma paginate_queryset_cases rows (qp : gmap string string) :
  paginate_queryset ReviewPagination (QuerySet rows) qp
    = inl (NotFound "Invalid page.")
  \/ exists p,
       paginate_queryset ReviewPagination (QuerySet rows) qp = inr (Some p)
       /\ Z.of_nat (length (page_rows p)) <= get_page_size ReviewPagination qp
       /\ (forall rv, rv ∈ page_rows p -> rv ∈ rows)
       /\ page_count p = Z.of_nat (length rows).
Proof.
  destruct (paginate_queryset ReviewPagination (QuerySet rows) qp)
    as [e|[p|]] eqn:Hp.
  - left. revert Hp. unfold paginate_queryset.
    destruct (_ =? 0); [discriminate|].
    destruct (get_page_number_queryset qp rows
                (get_page_size ReviewPagination qp)) as [pn ->].
    destruct (page_queryset rows (get_page_size ReviewPagination qp) pn)
      as [[bad ->] | [p ->]]; congruence.
  - right. exists p. split; [reflexivity|].
    by apply paginate_queryset_rows.
  - by apply paginate_queryset_on in Hp.
Qed.



Lemma list_outcome (u : User) (qp : gmap string string) db rows :
  ReviewViewSet.get_queryset qp db = QuerySet rows ->
  ReviewViewSet.as_view_list (Some u) qp db =
    (match paginate_queryset ReviewPagination (QuerySet rows) qp with
     | inl e => handle_exception e
     | inr (Some p) => Returned (get_paginated_response p (page_rows p))
     | inr None => Raised ContentNotRenderedError
     end, db).
Proof.
  intros Hq. unfold ReviewViewSet.as_view_list.
  rewrite dispatch_authenticated by reflexivity.
  unfold ReviewViewSet.list, ReviewViewSet.pagination_class. rewrite Hq.
  destruct (paginate_queryset_cases rows qp) as [-> | (p & -> & _)];
    reflexivity.
Qed.

Lemma get_outcome (u : User) movie_id (qp : gmap string string) db rows :
  ReviewListCreateView.filtered movie_id qp db = inr rows ->
  ReviewListCreateView.as_view_get (Some u) movie_id qp db =
    (match paginate_queryset ReviewPagination (QuerySet rows) qp with
     | inl e => handle_exception e
     | inr (Some p) => Returned (get_paginated_response p (page_rows p))
     | inr None => Raised ContentNotRenderedError
     end, db).
Proof.
  intros Hf. unfold ReviewListCreateView.as_view_get.
  rewrite dispatch_authenticated by reflexivity.
  unfold ReviewListCreateView.get. rewrite Hf.
  destruct (paginate_queryset_cases rows qp) as [-> | (p & -> & _)];
    reflexivity.
Qed.


(** *** Containment, read off the strings *)









(** ** Page size and page number *)

Lemma ceil_div_pos a b : 1 <= a -> 1 <= b -> 1 <= ceil_div a b.
Proof.
  intros Ha Hb. unfold ceil_div.
  apply Z.div_le_lower_bound; lia.
Qed.

Lemma page_of_response resp per_page pn p :
  DRF.page (ResponseObj resp) per_page pn <> inr (inr p).
Proof.
  unfold DRF.page, validate_number, num_pages. simpl.
  destruct (match pn with PInt n => Some n | PStr s => Py.int s end) as [n|];
    [|discriminate].
  destruct (n <? 1); discriminate.
Qed.

Lemma paginate_queryset_any_rows ol (qp : gmap string string) p :
  paginate_queryset ReviewPagination ol qp = inr (Some p) ->
  Z.of_nat (length (page_rows p)) <= get_page_size ReviewPagination qp.
Proof.
  destruct ol as [rows|resp].
  - intros Hp. apply paginate_queryset_rows in Hp as [Hlen _]. exact Hlen.
  - unfold paginate_queryset. destruct (_ =? 0); [discriminate|].
    destruct (get_page_number _ _ _) as [e|pn]; [discriminate|].
    destruct (DRF.page _ _ pn) as [e|[bad|p']] eqn:Hp; try discriminate.
    by apply page_of_response in Hp.
Qed.

(** A page number above the number of the last page is refused. *)
Lemma paginate_queryset_beyond_last rows (qp : gmap string string) s n :
  qp !! "page" = Some s -> Py.int s = Some n ->
  ceil_div (Z.max 1 (Z.of_nat (length rows)))
    (get_page_size ReviewPagination qp) < n ->
  paginate_queryset ReviewPagination (QuerySet rows) qp
    = inl (NotFound "Invalid page.").
Proof.
  intros Hpage Hint Hlast. pose proof (get_page_size_bounds qp) as Hb.
  pose proof (ceil_div_pos (Z.max 1 (Z.of_nat (length rows)))
                (get_page_size ReviewPagination qp)) as Hnp.
  unfold paginate_queryset, get_page_number, page_query_param.
  rewrite Hpage.
  destruct (get_page_size ReviewPagination qp =? 0) eqn:Hz; [lia|].
  destruct s as [|c s']; [discriminate|]. cbn [Py.truthy].
  case_bool_decide as Hin.
  { apply list_elem_of_singleton in Hin. rewrite Hin in Hint. discriminate. }
  unfold DRF.page, validate_number, num_pages. simpl. rewrite Hint.
  destruct (n <? 1); [reflexivity|].
  replace ((_ <? n) && negb (n =? 1)) with true by lia.
  reflexivity.
Qed.

Lemma get_page_size_default (qp : gmap string string) :
  qp !! "page_size" = None -> get_page_size ReviewPagination qp = 10.
Proof. intros H. unfold get_page_size. simpl. by rewrite H. Qed.

Lemma get_page_size_requested (qp : gmap string string) s n :
  qp !! "page_size" = Some s -> Py.int s = Some n -> 0 < n ->
  get_page_size ReviewPagination qp = Z.min n 100.
Proof.
  intros Hs Hint Hn. unfold get_page_size, positive_int. simpl.
  rewrite Hs, Hint.
  replace (n <? 0) with false by lia. replace (n =? 0) with false by lia.
  reflexivity.
Qed.

Lemma list_page_results (u : User) (qp : gmap string string) db
    st cnt nx pv results :
  fst (ReviewViewSet.as_view_list (Some u) qp db)
    = Returned (mkResponse (BPage cnt nx pv results) st) ->
  Z.of_nat (length results) <= get_page_size ReviewPagination qp.
Proof.
  unfold ReviewViewSet.as_view_list.
  rewrite dispatch_authenticated by reflexivity.
  unfold ReviewViewSet.list, ReviewViewSet.pagination_class.
  destruct (paginate_queryset _ _ qp) as [e|[p|]] eqn:Hp; simpl.
  - destruct e; discriminate.
  - intros [= <- <- <- <- <-]. by apply paginate_queryset_any_rows in Hp.
  - by apply paginate_queryset_on in Hp.
Qed.

Lemma get_page_results (u : User) movie_id (qp : gmap string string) db
    st cnt nx pv results :
  fst (ReviewListCreateView.as_view_get (Some u) movie_id qp db)
    = Returned (mkResponse (BPage cnt nx pv results) st) ->
  Z.of_nat (length results) <= get_page_size ReviewPagination qp.
Proof.
  unfold ReviewListCreateView.as_view_get.
  rewrite dispatch_authenticated by reflexivity.
  unfold ReviewListCreateView.get.
  destruct (ReviewListCreateView.filtered movie_id qp db) as [resp|rows] eqn:Hf.
  - simpl. intros [= ->]. revert Hf. unfold ReviewListCreateView.filtered.
    repeat match goal with
           | |- context [match ?x with _ => _ end] => destruct x
           end; discriminate.
  - destruct (paginate_queryset _ _ qp) as [e|[p|]] eqn:Hp; simpl.
    + destruct e; discriminate.
    + intros [= <- <- <- <- <-]. by apply paginate_queryset_any_rows in Hp.
    + by apply paginate_queryset_on in Hp.
Qed.

(** C3 (amended). For every review-list request the default page size is
    10 and a requested page_size is capped at 100, so that no page of either
    list endpoint holds more than 100 items; a page number beyond the last
    page is answered with 404 and the detail "Invalid page.", not with an
    empty page.  The page_size and page parameters that are read as numbers
    here are ASCII text. *)
Theorem C3_page_size_capped_and_page_beyond_last_refused
    (u : User) (movie_id : Z) (qp : gmap string string) (db : DB) :
  (qp !! "page_size" = None -> get_page_size ReviewPagination qp = 10)
  /\ (forall s n,
        qp !! "page_size" = Some s -> Py.isascii s = true ->
        Py.int s = Some n -> 0 < n ->
        get_page_size ReviewPagination qp = Z.min n 100)
  /\ get_page_size ReviewPagination qp <= 100
  /\ (forall st cnt nx pv results,
        fst (ReviewViewSet.as_view_list (Some u) qp db)
          = Returned (mkResponse (BPage cnt nx pv results) st)
        \/ fst (ReviewListCreateView.as_view_get (Some u) movie_id qp db)
          = Returned (mkResponse (BPage cnt nx pv results) st) ->
        Z.of_nat (length results) <= 100)
  /\ (forall s n rows last,
        qp !! "page" = Some s -> Py.isascii s = true ->
        ascii_param qp "page_size" = true ->
        Py.int s = Some n ->
        num_pages (QuerySet rows) (get_page_size ReviewPagination qp)
          = inr last ->
        last < n ->
        (ReviewViewSet.get_queryset qp db = QuerySet rows ->
         ReviewViewSet.as_view_list (Some u) qp db = (invalid_page, db))
        /\ (ReviewListCreateView.filtered movie_id qp db = inr rows ->
            ReviewListCreateView.as_view_get (Some u) movie_id qp db
              = (invalid_page, db))).
Proof.
  pose proof (get_page_size_bounds qp) as Hb.
  split; [apply get_page_size_default|].
  split; [intros s n Hs _; by apply get_page_size_requested|].
  split; [lia|]. split.
  - intros st cnt nx pv results [H|H].
    + apply list_page_results in H. lia.
    + apply get_page_results in H. lia.
  - intros s n rows last Hpage _ _ Hint Hlast Hn.
    unfold num_pages in Hlast. simpl in Hlast. injection Hlast as <-.
    pose proof (paginate_queryset_beyond_last rows qp s n Hpage Hint Hn) as Hp.
    split; intros Hrows.
    + rewrite (list_outcome u qp db rows Hrows), Hp. reflexivity.
    + rewrite (get_outcome u movie_id qp db rows Hrows), Hp. reflexivity.
Qed.

Lemma C3_page_beyond_last_witness :
  get_page_size ReviewPagination {["page" := "2"]} = 10
  /\ get_page_size ReviewPagination {["page_size" := "500"]} = 100
  /\ ReviewViewSet.as_view_list (Some Sample.bob) {["page" := "2"]} Sample.db0
     = (invalid_page, Sample.db0)
  /\ ReviewListCreateView.as_view_get (Some Sample.bob) 1 {["page" := "2"]}
       Sample.db0
     = (invalid_page, Sample.db0).
Proof.
  destruct (C3_page_size_capped_and_page_beyond_last_refused Sample.bob 1
              {["page" := "2"]} Sample.db0)
    as (Hdefault & _ & _ & _ & Hbeyond).
  split; [apply Hdefault; reflexivity|].
  split.
  { destruct (C3_page_size_capped_and_page_beyond_last_refused Sample.bob 1
                {["page_size" := "500"]} Sample.db0)
      as (_ & Hcapped & _).
    apply (Hcapped "500" 500); [reflexivity | reflexivity | reflexivity | lia]. }
  split.
  - destruct (Hbeyond "2" 2 (reviews Sample.db0) 1) as [Hlist _];
      [reflexivity | reflexivity | reflexivity | reflexivity | reflexivity
      | lia |].
    apply Hlist. reflexivity.
  - destruct (Hbeyond "2" 2 [Sample.review1; Sample.review2] 1) as [_ Hget];
      [reflexivity | reflexivity | reflexivity | reflexivity | reflexivity
      | lia |].
    apply Hget. reflexivity.
Defined.

(** C3 fails on the last part: with three reviews and ten to a page, page 2 lies
    beyond the last page, and both list endpoints answer 404 instead of an
    envelope with no results. *)
Lemma C3_counterexample :
  num_pages (QuerySet (reviews Sample.db0))
    (get_page_size ReviewPagination {["page" := "2"]}) = inr 1
  /\ ReviewViewSet.as_view_list (Some Sample.bob) {["page" := "2"]} Sample.db0
     = (Returned (mkResponse (BDetail "Invalid page.") 404), Sample.db0)
  /\ ReviewListCreateView.as_view_get (Some Sample.bob) 1 {["page" := "2"]}
       Sample.db0
     = (Returned (mkResponse (BDetail "Invalid page.") 404), Sample.db0).
Proof. repeat split; vm_compute; reflexivity. Qed.

(** ** Who may change the movie catalog *)

(** C4 (amended). For every movie create, update or delete request that
    [MovieListCreateView] or [MovieDetailView] handles for an authenticated
    user without the admin flag, the answer is 403 and the tables are
    unchanged.  [MovieViewSet] asks for authentication only: its permission
    check admits the same user, and its destroy action deletes the movie it
    finds. *)
Theorem C4_movie_views_admin_only_viewset_any_user
    `{!Schema} (u : User) (movie_id : Z) (qp : gmap string string)
    (data : gmap string Value) (db : DB) :
  is_staff u = false ->
  let forbidden :=
    Returned (mkResponse
      (BDetail "You do not have permission to perform this action.") 403) in
  MovieListCreateView.as_view_post (Some u) data db = (forbidden, db)
  /\ MovieDetailView.as_view_put (Some u) movie_id data db = (forbidden, db)
  /\ MovieDetailView.as_view_delete (Some u) movie_id db = (forbidden, db)
  /\ check_permissions MovieViewSet.permission_classes (Some u) = None
  /\ (forall m, MovieViewSet.get_object qp movie_id db = inr m ->
        MovieViewSet.as_view_destroy (Some u) qp movie_id db
          = (Returned (mkResponse BNone 204), Movie_delete m db)).
Proof.
  intros Hstaff forbidden.
  assert (forallb (fun p => has_permission p (Some u)) [IsAdminUser] = false)
    as Hno by (simpl; by rewrite Hstaff).
  unfold MovieListCreateView.as_view_post, MovieDetailView.as_view_put,
    MovieDetailView.as_view_delete.
  unfold MovieListCreateView.permission_classes,
    MovieDetailView.permission_classes.
  rewrite !dispatch_refused by exact Hno.
  repeat split.
  intros m Hm. unfold MovieViewSet.as_view_destroy.
  rewrite dispatch_authenticated by reflexivity.
  unfold MovieViewSet.destroy. rewrite Hm. reflexivity.
Qed.

Lemma C4_movie_views_admin_only_witness :
  @MovieListCreateView.as_view_post (Sample.schema true) (Some Sample.bob)
    {["title" := VStr "Up"]} Sample.db0
  = (Returned (mkResponse
       (BDetail "You do not have permission to perform this action.") 403),
     Sample.db0)
  /\ MovieDetailView.as_view_delete (Some Sample.bob) 1 Sample.db0
     = (Returned (mkResponse
          (BDetail "You do not have permission to perform this action.")
          403),
        Sample.db0).
Proof.
  destruct (@C4_movie_views_admin_only_viewset_any_user (Sample.schema true)
              Sample.bob 1 ∅ {["title" := VStr "Up"]} Sample.db0)
    as (Hpost & _ & Hdelete & _).
  - reflexivity.
  - split; [exact Hpost | exact Hdelete].
Defined.

(** C4 fails on [MovieViewSet]: a user without the admin flag
    deletes a movie, the answer is 204 and the movie is gone. *)
Lemma C4_counterexample :
  is_staff Sample.bob = false
  /\ MovieViewSet.as_view_destroy (Some Sample.bob) ∅ 1
       (mkDB [Sample.alice; Sample.bob] [Sample.matrix; Sample.heat] [])
     = (Returned (mkResponse BNone 204),
        mkDB [Sample.alice; Sample.bob] [Sample.heat] []).
Proof. split; vm_compute; reflexivity. Qed.

(** ** Lookups of rows that are not there *)

Lemma Movie_objects_get_missing db id :
  exists_movie db id = false ->
  Movie_objects_get db id = inl (DoesNotExist "Movie").
Proof.
  unfold exists_movie, Movie_objects_get. intros Hno.
  replace (List.filter (fun m => movie_id m =? id) (movies db)) with
    (@nil Movie); [reflexivity|].
  induction (movies db) as [|m l IH]; [reflexivity|].
  simpl in *. destruct (movie_id m =? id); [discriminate|]. by apply IH.
Qed.

Lemma Review_objects_get_not_owned db id (u : User) :
  (forall rv, rv ∈ reviews db -> review_id rv = id -> user rv <> user_id u) ->
  Review_objects_get db id u = inl (DoesNotExist "Review").
Proof.
  unfold Review_objects_get. intros Hno.
  replace (List.filter _ (reviews db)) with (@nil Review); [reflexivity|].
  induction (reviews db) as [|rv l IH]; [reflexivity|].
  simpl. destruct (review_id rv =? id) eqn:Hid; simpl.
  - destruct (user rv =? user_id u) eqn:Hu.
    + exfalso. apply (Hno rv); [left | lia | lia].
    + apply IH. intros x Hx. apply Hno. by right.
  - apply IH. intros x Hx. apply Hno. by right.
Qed.

(** The lookup of [MovieDetailView] leaves with [Movie.DoesNotExist] for
    every identifier that is not stored, whoever asks. *)
Lemma MovieDetailView_missing `{!Schema} (u : User) id data db :
  is_staff u = true -> exists_movie db id = false ->
  MovieDetailView.as_view_get (Some u) id db
    = (Raised (DoesNotExist "Movie"), db)
  /\ MovieDetailView.as_view_put (Some u) id data db
     = (Raised (DoesNotExist "Movie"), db)
  /\ MovieDetailView.as_view_delete (Some u) id db
     = (Raised (DoesNotExist "Movie"), db).
Proof.
  intros Hstaff Hno. apply Movie_objects_get_missing in Hno.
  unfold MovieDetailView.as_view_get, MovieDetailView.as_view_put,
    MovieDetailView.as_view_delete.
  rewrite !dispatch_authenticated by (simpl; by rewrite Hstaff).
  unfold MovieDetailView.get, MovieDetailView.put, MovieDetailView.delete.
  rewrite Hno. repeat split.
Qed.

(** A review that the acting user does not own is not found by the lookup of
    [ReviewDetailView], which leaves with [Review.DoesNotExist]; the tables
    are as they were. *)
Lemma ReviewDetailView_not_owned `{!Schema} (u : User) id data db :
  (forall rv, rv ∈ reviews db -> review_id rv = id -> user rv <> user_id u) ->
  ReviewDetailView.as_view_put (Some u) id data db
    = (Raised (DoesNotExist "Review"), db)
  /\ ReviewDetailView.as_view_delete (Some u) id db
     = (Raised (DoesNotExist "Review"), db).
Proof.
  intros Hno. apply Review_objects_get_not_owned in Hno.
  unfold ReviewDetailView.as_view_put, ReviewDetailView.as_view_delete.
  rewrite !dispatch_authenticated by reflexivity.
  unfold as_user, ReviewDetailView.put, ReviewDetailView.delete.
  rewrite Hno. split; reflexivity.
Qed.

(** C6. A lookup by an identifier that is not stored, on
    [MovieDetailView]: movie 9 is not stored, and GET, PUT and DELETE by the
    admin leave with [Movie.DoesNotExist], which no handler turns into a
    response, so the client sees 500 and not 404; the guarded lookup of
    [CreateMovieReviewView] answers 404 for the same movie. *)
Theorem C6_movie_detail_lookup_fault_not_normalized :
  is_staff Sample.alice = true
  /\ exists_movie Sample.db0 9 = false
  /\ MovieDetailView.as_view_get (Some Sample.alice) 9 Sample.db0
     = (Raised (DoesNotExist "Movie"), Sample.db0)
  /\ (forall (S : Schema) data,
        MovieDetailView.as_view_put (Some Sample.alice) 9 data Sample.db0
        = (Raised (DoesNotExist "Movie"), Sample.db0))
  /\ MovieDetailView.as_view_delete (Some Sample.alice) 9 Sample.db0
     = (Raised (DoesNotExist "Movie"), Sample.db0)
  /\ client_status (Raised (DoesNotExist "Movie")) = 500
  /\ (forall (S : Schema) data now,
        CreateMovieReviewView.as_view_post (Some Sample.bob) 9 data now
          Sample.db0
        = (Returned (mkResponse (BError "Movie not found.") 404),
           Sample.db0)).
Proof.
  split; [reflexivity|]. split; [reflexivity|].
  split; [reflexivity|]. split.
  { intros S data.
    by destruct (@MovieDetailView_missing S Sample.alice 9 data Sample.db0)
      as (_ & Hput & _). }
  split; [reflexivity|]. split; [reflexivity|].
  intros S data now. reflexivity.
Qed.

(** C1. An update or delete of another user's review: review 1 is
    Alice's, and Bob's PUT and DELETE leave with [Review.DoesNotExist],
    which no handler turns into a response, so the client sees 500, neither
    404 nor 403; the tables are unchanged. *)
Theorem C1_non_owner_lookup_fault_not_normalized :
  user Sample.review1 = user_id Sample.alice
  /\ (forall (S : Schema) data,
        ReviewDetailView.as_view_put (Some Sample.bob) 1 data Sample.db0
        = (Raised (DoesNotExist "Review"), Sample.db0))
  /\ ReviewDetailView.as_view_delete (Some Sample.bob) 1 Sample.db0
     = (Raised (DoesNotExist "Review"), Sample.db0)
  /\ client_status (Raised (DoesNotExist "Review")) = 500.
Proof.
  split; [reflexivity|]. split; [|split; reflexivity].
  intros S data. reflexivity.
Qed.

(** ** Creating a review *)

Lemma Movie_objects_get_id db id m :
  Movie_objects_get db id = inr m -> movie_id m = id.
Proof.
  unfold Movie_objects_get, Models.get.
  destruct (List.filter _ (movies db)) as [|x [|y l]] eqn:Hf; try discriminate.
  intros [= <-].
  assert (In x (List.filter (fun m => movie_id m =? id) (movies db))) as Hin
    by (rewrite Hf; by left).
  apply filter_In in Hin as [_ Hx]. lia.
Qed.

Lemma ReviewSerializer_create_appends a now db rv db' :
  ReviewSerializer_create a now db = inr (rv, db') ->
  db' = mkDB (users db) (movies db) (reviews db ++ [rv])
  /\ a_movie a = Some (movie rv) /\ a_user a = Some (user rv).
Proof.
  unfold ReviewSerializer_create, Review_objects_create.
  destruct (a_movie a) as [mv|], (a_user a) as [us|], (a_rating a) as [rt|];
    try discriminate.
  destruct (exists_movie db mv && exists_user db us); [|discriminate].
  intros [= <- <-]. auto.
Qed.

Lemma ReviewListCreateView_post_creates `{!Schema} (u : User) movie_id
    (data : gmap string Value) now db :
  creates_for u movie_id db
    (ReviewListCreateView.as_view_post (Some u) movie_id data now db).
Proof.
  unfold ReviewListCreateView.as_view_post.
  rewrite dispatch_authenticated by reflexivity.
  unfold as_user, ReviewListCreateView.post.
  set (d := <["user":=VInt (user_id u)]> (<["movie":=VInt movie_id]> data)).
  destruct (ReviewSerializer_is_valid db None d) as [errs|a] eqn:Hv;
    [right; split; [discriminate|reflexivity]|].
  destruct (ReviewSerializer_create a now db) as [e|[rv db']] eqn:Hc.
  - right. split; [|reflexivity]. simpl. by destruct e.
  - left. exists rv. apply ReviewSerializer_create_appends in Hc
      as (-> & Hm & Hu).
    split; [reflexivity|]. split; [reflexivity|]. split.
    + apply (ReviewSerializer_user_pk db None d a _ _ Hv Hu).
      subst d. by rewrite lookup_insert_eq.
    + apply (ReviewSerializer_movie_pk db None d a _ _ Hv Hm).
      subst d. rewrite lookup_insert_ne by discriminate.
      by rewrite lookup_insert_eq.
Qed.

Lemma CreateMovieReviewView_post_creates `{!Schema} (u : User) movie_id
    (data : gmap string Value) now db :
  creates_for u movie_id db
    (CreateMovieReviewView.as_view_post (Some u) movie_id data now db).
Proof.
  unfold CreateMovieReviewView.as_view_post.
  rewrite dispatch_authenticated by reflexivity.
  unfold as_user, CreateMovieReviewView.post.
  destruct (Movie_objects_get db movie_id) as [e|m] eqn:Hget.
  { right. destruct e; (split; [discriminate|reflexivity]). }
  apply Movie_objects_get_id in Hget.
  destruct (ReviewSerializer_is_valid db None data) as [errs|a] eqn:Hv;
    [right; split; [discriminate|reflexivity]|].
  destruct (ReviewSerializer_create _ now db) as [e|[rv db']] eqn:Hc.
  - right. split; [|reflexivity]. simpl. by destruct e.
  - left. exists rv. apply ReviewSerializer_create_appends in Hc
      as (-> & Hm & Hu).
    simpl in Hm, Hu. split; [reflexivity|]. split; [reflexivity|].
    split; congruence.
Qed.



(** ** Login *)



(** ** Profile update *)

Lemma save_user_stored (u : User) (l : list User) : u ∈ save_user u l.
Proof.
  induction l as [|x l IH]; simpl; [by left|].
  destruct (user_id x =? user_id u); [by left | by right].
Qed.

Lemma save_user_others (u x : User) (l : list User) :
  user_id x <> user_id u -> x ∈ l <-> x ∈ save_user u l.
Proof.
  intros Hne. induction l as [|y l IH]; simpl.
  - rewrite list_elem_of_singleton. split; [|congruence].
    intros H. by apply elem_of_nil in H.
  - destruct (user_id y =? user_id u) eqn:Hy; rewrite !elem_of_cons.
    + apply Z.eqb_eq in Hy.
      split; (intros [Heq | H]; [subst; congruence | by right]).
    + by rewrite IH.
Qed.

Lemma handle_exception_status (e : Exn) :
  client_status (handle_exception e) <> 200.
Proof. destruct e; vm_compute; discriminate. Qed.

Section profile_update.
Context `{!Auth} `{!External}.

Lemma column_inr (name : string) (v : JSON) (s : string) :
  UserUpdateView.column name v = inr s <->
  UserUpdateView.get_prep_value v = Some s /\ column_fault name s = None.
Proof.
  unfold UserUpdateView.column.
  destruct (UserUpdateView.get_prep_value v) as [t|].
  - destruct (column_fault name t) eqn:Hf; split.
    + discriminate.
    + intros [[= ->] Hs]. congruence.
    + intros [= ->]. by split.
    + by intros [[= ->] _].
  - split; [discriminate | by intros [? _]].
Qed.

Lemma save_inr (o : UserUpdateView.UserObject) (db db' : DB) :
  UserUpdateView.save o db = inr db' <->
  exists pw un fn ln em,
    UserUpdateView.column "password"
      (JString (UserUpdateView.o_password o)) = inr pw
    /\ UserUpdateView.column "username"
         (JString (UserUpdateView.o_username o)) = inr un
    /\ UserUpdateView.column "first_name" (UserUpdateView.o_first_name o)
       = inr fn
    /\ UserUpdateView.column "last_name" (UserUpdateView.o_last_name o)
       = inr ln
    /\ UserUpdateView.column "email" (UserUpdateView.o_email o) = inr em
    /\ db' = User_save
               (mkUser (UserUpdateView.o_id o) un pw em fn ln
                  (UserUpdateView.o_is_staff o)) db.
Proof.
  unfold UserUpdateView.save. split.
  - destruct (UserUpdateView.column "password" _) as [|pw]; [discriminate|].
    destruct (UserUpdateView.column "username" _) as [|un]; [discriminate|].
    destruct (UserUpdateView.column "first_name" _) as [|fn]; [discriminate|].
    destruct (UserUpdateView.column "last_name" _) as [|ln]; [discriminate|].
    destruct (UserUpdateView.column "email" _) as [|em]; [discriminate|].
    intros [= <-]. by exists pw, un, fn, ln, em.
  - intros (pw & un & fn & ln & em & -> & -> & -> & -> & -> & ->).
    reflexivity.
Qed.

Lemma put_unfold (data : gmap string JSON) (u : User) (db : DB) :
  UserUpdateView.put data u db =
  match (match data !! "password" with
         | Some v => UserUpdateView.hash_password v
         | None => inr (password u)
         end) with
  | inl e => (Raised e, db)
  | inr pw =>
      match UserUpdateView.save (assigned data u pw) db with
      | inl e => (Raised e, db)
      | inr db' =>
          (Returned (mkResponse (BMessage "User updated successfully") 200),
           db')
      end
  end.
Proof.
  unfold UserUpdateView.put, assigned.
  destruct (data !! "email"), (data !! "password") as [v|],
    (data !! "first_name"), (data !! "last_name");
    try destruct (UserUpdateView.hash_password v); reflexivity.
Qed.

Lemma as_view_put_unfold (data : gmap string JSON) (u : User) (db : DB) :
  UserUpdateView.as_view_put (Some u) data db =
  (match fst (UserUpdateView.put data u db) with
   | Raised e => handle_exception e
   | Returned r => Returned r
   end, snd (UserUpdateView.put data u db)).
Proof.
  unfold UserUpdateView.as_view_put.
  by rewrite dispatch_authenticated by reflexivity.
Qed.

Lemma written_prep (v : option JSON) (old new : string) :
  UserUpdateView.get_prep_value (default (JString old) v) = Some new ->
  written v old new.
Proof.
  destruct v as [[s| |s]|]; simpl; congruence.
Qed.

Lemma password_written_hash (v : option JSON) (old new : string) :
  match v with
  | Some w => UserUpdateView.hash_password w
  | None => inr old
  end = inr new ->
  password_written v old new.
Proof.
  destruct v as [[s| |s]|]; simpl; congruence.
Qed.

(** What a profile update does, whatever the body holds: it stores a row
    with the values of the body, or it fails and changes nothing. *)
Lemma put_outcome (data : gmap string JSON) (u : User) (db : DB) :
  (exists u',
     UserUpdateView.put data u db
     = (Returned (mkResponse (BMessage "User updated successfully") 200),
        User_save u' db)
     /\ written (data !! "email") (email u) (email u')
     /\ password_written (data !! "password") (password u) (password u')
     /\ written (data !! "first_name") (first_name u) (first_name u')
     /\ written (data !! "last_name") (last_name u) (last_name u')
     /\ user_id u' = user_id u
     /\ username u' = username u
     /\ is_staff u' = is_staff u)
  \/ (exists e, UserUpdateView.put data u db = (Raised e, db)).
Proof.
  rewrite put_unfold.
  destruct (match data !! "password" with
            | Some v => UserUpdateView.hash_password v
            | None => inr (password u)
            end) as [e|pw] eqn:Hpw; [right; by exists e|].
  destruct (UserUpdateView.save (assigned data u pw) db) as [e|db'] eqn:Hs;
    [right; by exists e|].
  left. apply save_inr in Hs
    as (pw' & un & fn & ln & em & Hp & Hu & Hf & Hl & He & ->).
  apply column_inr in Hp as [[= <-] _]. apply column_inr in Hu as [[= <-] _].
  apply column_inr in Hf as [Hf _]. apply column_inr in Hl as [Hl _].
  apply column_inr in He as [He _]. simpl in *.
  eexists. split; [reflexivity|]. simpl.
  repeat split;
    [by apply written_prep | by apply password_written_hash
    | by apply written_prep | by apply written_prep].
Qed.

(** A body without nulls and without a password that is not a text is
    stored when the store takes its texts. *)
Lemma put_stored (data : gmap string JSON) (u : User) (db : DB) :
  storable u ->
  takes "email" (data !! "email") ->
  takes_password (data !! "password") ->
  takes "first_name" (data !! "first_name") ->
  takes "last_name" (data !! "last_name") ->
  fst (UserUpdateView.put data u db)
  = Returned (mkResponse (BMessage "User updated successfully") 200).
Proof.
  intros (Hpw & Hun & Hfn & Hln & Hem) He Hp Hf Hl. rewrite put_unfold.
  assert (exists pw,
            match data !! "password" with
            | Some v => UserUpdateView.hash_password v
            | None => inr (password u)
            end = inr pw /\ column_fault "password" pw = None)
    as (pw & -> & Hpw').
  { destruct (data !! "password") as [[s| |s]|]; simpl in Hp; try done;
      eexists; (split; [reflexivity | done]). }
  assert (forall name v old,
            takes name v -> column_fault name old = None ->
            exists t, UserUpdateView.column name (default (JString old) v)
                      = inr t) as Hcol.
  { intros name v old Ht Hold.
    destruct v as [[s| |s]|]; simpl in Ht; try done;
      eexists; apply column_inr; (split; [reflexivity | done]). }
  destruct (Hcol _ _ _ Hf Hfn) as [fn Hfn'].
  destruct (Hcol _ _ _ Hl Hln) as [ln Hln'].
  destruct (Hcol _ _ _ He Hem) as [em Hem'].
  assert (exists db', UserUpdateView.save (assigned data u pw) db = inr db')
    as [db' ->]; [|reflexivity].
  eexists. apply save_inr. exists pw, (username u), fn, ln, em.
  repeat split; try done; apply column_inr; by split.
Qed.

(** A null in one of the three text columns makes the update fail. *)
Lemma put_null (data : gmap string JSON) (u : User) (db : DB) :
  data !! "email" = Some JNull \/ data !! "first_name" = Some JNull
  \/ data !! "last_name" = Some JNull ->
  exists e, UserUpdateView.put data u db = (Raised e, db).
Proof.
  intros Hnull. rewrite put_unfold.
  destruct (match data !! "password" with
            | Some v => UserUpdateView.hash_password v
            | None => inr (password u)
            end) as [e|pw]; [by exists e|].
  destruct (UserUpdateView.save (assigned data u pw) db) as [e|db'] eqn:Hs;
    [by exists e|].
  exfalso. apply save_inr in Hs
    as (pw' & un & fn & ln & em & _ & _ & Hf & Hl & He & _).
  apply column_inr in Hf as [Hf _]. apply column_inr in Hl as [Hl _].
  apply column_inr in He as [He _]. simpl in *.
  destruct Hnull as [Hn | [Hn | Hn]]; rewrite Hn in *; discriminate.
Qed.

End profile_update.

(** C10 (amended). For every authenticated profile update with a JSON
    object as body, one of two things happens.  The update is stored and
    answered with the success message and status 200: of the acting user's
    row, [email], [first_name] and [last_name] hold the text of the body's
    value where the body has one, [password] holds the hash of the body's
    password where it has one, every field that the body does not hold
    keeps its value, as do the user's id, name and admin flag, and the rows
    of the other users, the movies and the reviews are untouched.  Or the
    request fails and nothing at all is changed.  The update is stored
    whenever every value the body holds for [email], [first_name] and
    [last_name] is not null and has a text that the store takes, and its
    password, if any, is a text whose hash the store takes; it fails
    whenever the body holds null for [email], [first_name] or [last_name]. *)
Theorem C10_profile_update_writes_supplied_fields_only
    `{!Auth} `{!External} (u : User) (data : gmap string JSON) (db : DB) :
  let res := UserUpdateView.as_view_put (Some u) data db in
  let success :=
    Returned (mkResponse (BMessage "User updated successfully") 200) in
  ((exists u',
      res = (success, User_save u' db)
      /\ written (data !! "email") (email u) (email u')
      /\ password_written (data !! "password") (password u) (password u')
      /\ written (data !! "first_name") (first_name u) (first_name u')
      /\ written (data !! "last_name") (last_name u) (last_name u')
      /\ user_id u' = user_id u
      /\ username u' = username u
      /\ is_staff u' = is_staff u
      /\ u' ∈ users (User_save u' db)
      /\ (forall x, user_id x <> user_id u ->
            x ∈ users db <-> x ∈ users (User_save u' db))
      /\ movies (User_save u' db) = movies db
      /\ reviews (User_save u' db) = reviews db)
   \/ failed_without_change db res)
  /\ (storable u ->
      takes "email" (data !! "email") ->
      takes_password (data !! "password") ->
      takes "first_name" (data !! "first_name") ->
      takes "last_name" (data !! "last_name") ->
      fst res = success)
  /\ (data !! "email" = Some JNull \/ data !! "first_name" = Some JNull
      \/ data !! "last_name" = Some JNull ->
      failed_without_change db res).
Proof.
  intros res success. subst res success. rewrite as_view_put_unfold.
  split; [|split].
  - destruct (put_outcome data u db)
      as [(u' & -> & He & Hp & Hf & Hl & Hid & Hun & Hst) | [e ->]].
    + left. exists u'. simpl.
      repeat split; try done.
      * apply save_user_stored.
      * apply save_user_others. congruence.
      * apply save_user_others. congruence.
    + right. split; [apply handle_exception_status | reflexivity].
  - intros Hu He Hp Hf Hl. simpl.
    by rewrite (put_stored data u db Hu He Hp Hf Hl).
  - intros Hnull. destruct (put_null data u db Hnull) as [e ->].
    split; [apply handle_exception_status | reflexivity].
Qed.

Lemma C10_profile_update_witness :
  fst (@UserUpdateView.as_view_put Sample.auth Sample.external
         (Some Sample.bob) {["first_name" := JString "Robert"]} Sample.db0)
  = Returned (mkResponse (BMessage "User updated successfully") 200)
  /\ failed_without_change Sample.db0
       (@UserUpdateView.as_view_put Sample.auth Sample.external
          (Some Sample.bob) {["first_name" := JNull]} Sample.db0).
Proof.
  split.
  - destruct (@C10_profile_update_writes_supplied_fields_only
                Sample.auth Sample.external Sample.bob
                {["first_name" := JString "Robert"]} Sample.db0)
      as (_ & Hstored & _).
    apply Hstored.
    + repeat split; reflexivity.
    + exact I.
    + exact I.
    + reflexivity.
    + exact I.
  - destruct (@C10_profile_update_writes_supplied_fields_only
                Sample.auth Sample.external Sample.bob
                {["first_name" := JNull]} Sample.db0)
      as (_ & _ & Hnull).
    apply Hnull. right. left. reflexivity.
Defined.

(** C10 fails on a body with a null: the update of the first name to
    [null] is refused by the store, the request ends with the store's
    integrity error, which the client sees as status 500, and not with the
    success message. *)
Lemma C10_counterexample :
  @UserUpdateView.as_view_put Sample.auth Sample.external
    (Some Sample.bob) {["first_name" := JNull]} Sample.db0
  = (Raised IntegrityError, Sample.db0)
  /\ client_status
       (fst (@UserUpdateView.as_view_put Sample.auth Sample.external
               (Some Sample.bob) {["first_name" := JNull]} Sample.db0))
     = 500.
Proof. split; vm_compute; reflexivity. Qed.

(** ** The builtins on a few inputs *)

Example int_examples :
  Py.int "5" = Some 5 /\ Py.int " +4 " = Some 4 /\ Py.int "-1" = Some (-1)
  /\ Py.int "1_0" = Some 10 /\ Py.int "007" = Some 7
  /\ Py.int "abc" = None /\ Py.int "" = None /\ Py.int "3.5" = None
  /\ Py.int "5_" = None /\ Py.int "+ 5" = None.
Proof. repeat split; reflexivity. Qed.

Example icontains_examples :
  icontains "matrix" "The MATRIX Reloaded" = true
  /\ icontains "Matrix" "the matrix" = true
  /\ icontains "heat" "The Matrix" = false.
Proof. repeat split; reflexivity. Qed.

Example partial_profile_update :
  @UserUpdateView.as_view_put Sample.auth Sample.external (Some Sample.bob)
    {["first_name" := JString "Robert"]} Sample.db0
  = (Returned (mkResponse (BMessage "User updated successfully") 200),
     mkDB [Sample.alice;
           mkUser 2 "bob" (Sample.hash "builder") "bob@example.org" "Robert"
             "B" false]
       (movies Sample.db0) (reviews Sample.db0)).
Proof. vm_compute. reflexivity. Qed.

Example profile_update_values :
  @UserUpdateView.as_view_put Sample.auth Sample.external (Some Sample.bob)
    {["email" := JOther "5"]} Sample.db0
  = (Returned (mkResponse (BMessage "User updated successfully") 200),
     mkDB [Sample.alice;
           mkUser 2 "bob" (Sample.hash "builder") "5" "Bob" "B" false]
       (movies Sample.db0) (reviews Sample.db0))
  /\ @UserUpdateView.as_view_put Sample.auth Sample.external (Some Sample.bob)
       {["password" := JOther "5"]} Sample.db0
     = (Raised (TypeError "Password must be a string or bytes."), Sample.db0).
Proof. split; vm_compute; reflexivity. Qed.

Example int_of_separator :
  Py.int (String (ascii_of_nat 31) "5") = None
  /\ Py.int (String (ascii_of_nat 32) "5") = Some 5.
Proof. split; reflexivity. Qed.

(** * Further properties of the views *)

(** ** Deleting the own account *)

Lemma elem_of_filter_negb_eqb {A} (key : A -> Z) (k : Z) (l : list A) x :
  x ∈ List.filter (fun y => negb (key y =? k)) l <-> x ∈ l /\ key x <> k.
Proof.
  rewrite elem_of_List_filter. split; intros [Hin Hk]; (split; [done|]).
  - intros Heq. rewrite Heq, Z.eqb_refl in Hk. discriminate.
  - apply negb_true_iff. lia.
Qed.

(** X2. Deleting the own account answers 204 with the message, removes
    every user row with the acting user's id, keeps every other user row
    and does not touch the movies. *)
Theorem UserDeleteView_removes_acting_user_only (u : User) (db : DB) :
  exists db',
    UserDeleteView.as_view_delete (Some u) db
      = (Returned (mkResponse (BMessage "User deleted successfully") 204),
         db')
    /\ exists_user db' (user_id u) = false
    /\ (forall x, x ∈ users db' <-> x ∈ users db /\ user_id x <> user_id u)
    /\ movies db' = movies db
    /\ (forall r, r ∈ reviews db' -> r ∈ reviews db).
Proof.
  exists (UserDeleteView.User_delete u db). split; [reflexivity|].
  split; [|split; [|split]].
  - unfold exists_user, UserDeleteView.User_delete. simpl.
    induction (users db) as [|x l IH]; [reflexivity|]. simpl.
    destruct (user_id x =? user_id u) eqn:Hx; simpl; [exact IH|].
    by rewrite Hx.
  - intros x. apply elem_of_filter_negb_eqb.
  - reflexivity.
  - intros r Hr. simpl in Hr. by apply elem_of_List_filter in Hr as [Hr _].
Qed.

(** ** A review for a movie that is not stored *)

(** X3. [CreateMovieReviewView.post] for a movie that is not stored answers
    404 with "Movie not found." whatever the body and the serializer are,
    and stores nothing. *)
Theorem CreateMovieReviewView_missing_movie_404
    `{!Schema} (u : User) (movie_id : Z) (data : gmap string Value)
    (now : Z) (db : DB) :
  exists_movie db movie_id = false ->
  CreateMovieReviewView.as_view_post (Some u) movie_id data now db
    = (Returned (mkResponse (BError "Movie not found.") 404), db).
Proof.
  intros Hno. apply Movie_objects_get_missing in Hno.
  unfold CreateMovieReviewView.as_view_post.
  rewrite dispatch_authenticated by reflexivity.
  unfold as_user, CreateMovieReviewView.post. by rewrite Hno.
Qed.

Lemma CreateMovieReviewView_missing_movie_witness :
  @CreateMovieReviewView.as_view_post (Sample.schema true) (Some Sample.bob)
    7 {["rating" := VInt 4]} 50 Sample.db0
  = (Returned (mkResponse (BError "Movie not found.") 404), Sample.db0).
Proof.
  apply (@CreateMovieReviewView_missing_movie_404 (Sample.schema true)).
  reflexivity.
Defined.

(** ** The movie catalog *)

Lemma filter_no_key {A} (key : A -> Z) (k : Z) (l : list A) :
  (forall y, y ∈ l -> key y <> k) ->
  List.filter (fun x => key x =? k) l = [].
Proof.
  induction l as [|x l IH]; intros Hno; [reflexivity|]. simpl.
  destruct (key x =? k) eqn:Hx.
  - exfalso. apply (Hno x); [by left | lia].
  - apply IH. intros y Hy. apply Hno. by right.
Qed.

(** Under unique keys the rows with the key of a stored row are that row. *)
Lemma filter_unique_key {A} (key : A -> Z) (l : list A) (m : A) :
  NoDup (key <$> l) -> m ∈ l ->
  List.filter (fun x => key x =? key m) l = [m].
Proof.
  induction l as [|x l IH]; intros Hnd Hin; [by apply elem_of_nil in Hin|].
  rewrite fmap_cons in Hnd. apply NoDup_cons in Hnd as [Hx Hnd].
  simpl. apply elem_of_cons in Hin as [-> | Hin].
  - rewrite Z.eqb_refl. f_equal. apply filter_no_key.
    intros y Hy Heq. apply Hx. rewrite <- Heq.
    by apply list_elem_of_fmap_2.
  - destruct (key x =? key m) eqn:Hxm; [|by apply IH].
    exfalso. apply Hx. replace (key x) with (key m) by lia.
    by apply list_elem_of_fmap_2.
Qed.

Lemma Movie_objects_get_stored db m :
  NoDup (movie_id <$> movies db) -> m ∈ movies db ->
  Movie_objects_get db (movie_id m) = inr m.
Proof.
  intros Hnd Hin. unfold Movie_objects_get.
  by rewrite (filter_unique_key movie_id (movies db) m Hnd Hin).
Qed.

Lemma exists_movie_false db id :
  exists_movie db id = false <-> forall x, x ∈ movies db -> movie_id x <> id.
Proof.
  unfold exists_movie. induction (movies db) as [|y l IH]; simpl.
  - split; [|done]. intros _ x Hx. by apply elem_of_nil in Hx.
  - rewrite orb_false_iff, IH. split.
    + intros [Hy Hl] x Hx. apply elem_of_cons in Hx as [-> | Hx];
        [lia | by apply Hl].
    + intros Hall. split.
      * apply Z.eqb_neq, Hall. by left.
      * intros x Hx. apply Hall. by right.
Qed.

Lemma next_id_fresh (ids : list Z) x : x ∈ ids -> x < next_id ids.
Proof.
  unfold next_id. induction ids as [|y l IH]; intros Hx;
    [by apply elem_of_nil in Hx|].
  simpl. apply elem_of_cons in Hx as [-> | Hx]; [lia|].
  specialize (IH Hx). lia.
Qed.

(** X4. With unique movie ids, an admin's GET of a stored movie answers 200
    with that movie; the DELETE answers 200, removes it and keeps every
    other movie and the users; after it, GET and DELETE of the same id leave
    with [Movie.DoesNotExist]. *)
Theorem MovieDetailView_get_delete_get (u : User) (m : Movie) (db : DB) :
  is_staff u = true ->
  NoDup (movie_id <$> movies db) -> m ∈ movies db ->
  MovieDetailView.as_view_get (Some u) (movie_id m) db
    = (Returned (mkResponse (BMovie m) 200), db)
  /\ exists db',
       MovieDetailView.as_view_delete (Some u) (movie_id m) db
         = (Returned (mkResponse (BMessage "Movie deleted successfully") 200),
            db')
       /\ (forall x, x ∈ movies db' <->
             x ∈ movies db /\ movie_id x <> movie_id m)
       /\ users db' = users db
       /\ MovieDetailView.as_view_get (Some u) (movie_id m) db'
          = (Raised (DoesNotExist "Movie"), db')
       /\ MovieDetailView.as_view_delete (Some u) (movie_id m) db'
          = (Raised (DoesNotExist "Movie"), db').
Proof.
  intros Hstaff Hnd Hin.
  pose proof (Movie_objects_get_stored db m Hnd Hin) as Hget.
  assert (forallb (fun p => has_permission p (Some u)) [IsAdminUser] = true)
    as Hperm by (simpl; by rewrite Hstaff).
  unfold MovieDetailView.as_view_get, MovieDetailView.as_view_delete,
    MovieDetailView.permission_classes.
  rewrite !dispatch_authenticated by exact Hperm.
  unfold MovieDetailView.get, MovieDetailView.delete. rewrite Hget.
  split; [reflexivity|].
  exists (Movie_delete m db). split; [reflexivity|].
  assert (forall x, x ∈ movies (Movie_delete m db) <->
            x ∈ movies db /\ movie_id x <> movie_id m) as Hleft
    by (intros x; apply elem_of_filter_negb_eqb).
  split; [exact Hleft|]. split; [reflexivity|].
  assert (Movie_objects_get (Movie_delete m db) (movie_id m)
            = inl (DoesNotExist "Movie")) as Hgone.
  { apply Movie_objects_get_missing, exists_movie_false.
    intros x Hx. by apply Hleft in Hx as [_ Hx]. }
  rewrite !dispatch_authenticated by exact Hperm.
  rewrite Hgone. split; reflexivity.
Qed.

Lemma MovieDetailView_get_delete_get_witness :
  MovieDetailView.as_view_get (Some Sample.alice) 2 Sample.db0
    = (Returned (mkResponse (BMovie Sample.heat) 200), Sample.db0).
Proof.
  destruct (MovieDetailView_get_delete_get Sample.alice Sample.heat
              Sample.db0) as [Hget _].
  - reflexivity.
  - apply (bool_decide_unpack _). vm_compute. exact I.
  - simpl. right. left.
  - exact Hget.
Defined.

(** X5. An admin's POST of a body that the serializer accepts answers 201
    with the new movie, which is appended to the catalog under an id above
    every stored id; users and reviews are untouched, unique ids stay
    unique, and a GET of the new id answers 200 with the same movie. *)
Theorem MovieListCreateView_post_then_get
    `{!Schema} (u : User) (data : gmap string Value) (a : MovieAttrs)
    (db : DB) :
  is_staff u = true ->
  MovieSerializer_is_valid db None data = inr a ->
  exists m db',
    MovieListCreateView.as_view_post (Some u) data db
      = (Returned (mkResponse (BMovie m) 201), db')
    /\ movies db' = (movies db ++ [m])%list
    /\ users db' = users db /\ reviews db' = reviews db
    /\ title m = default "" (a_title a)
    /\ genre m = default "" (a_genre a)
    /\ (forall x, x ∈ movies db -> movie_id x < movie_id m)
    /\ (NoDup (movie_id <$> movies db) -> NoDup (movie_id <$> movies db'))
    /\ MovieDetailView.as_view_get (Some u) (movie_id m) db'
       = (Returned (mkResponse (BMovie m) 200), db').
Proof.
  intros Hstaff Hvalid.
  assert (forallb (fun p => has_permission p (Some u)) [IsAdminUser] = true)
    as Hperm by (simpl; by rewrite Hstaff).
  set (m := mkMovie (next_id (List.map movie_id (movies db)))
              (default "" (a_title a)) (default "" (a_genre a))).
  exists m, (mkDB (users db) (movies db ++ [m]) (reviews db)).
  assert (forall x, x ∈ movies db -> movie_id x < movie_id m) as Hfresh.
  { intros x Hx. apply next_id_fresh. by apply list_elem_of_fmap_2. }
  split.
  { unfold MovieListCreateView.as_view_post,
      MovieListCreateView.permission_classes.
    rewrite dispatch_authenticated by exact Hperm.
    unfold MovieListCreateView.post. rewrite Hvalid. reflexivity. }
  repeat split; try done.
  - intros Hnd. simpl. rewrite fmap_app. apply NoDup_app. split; [done|].
    split; [|apply NoDup_singleton].
    intros k Hk Hk'. apply list_elem_of_singleton in Hk'. subst k.
    apply list_elem_of_fmap in Hk as (x & Heq & Hx).
    specialize (Hfresh x Hx). lia.
  - unfold MovieDetailView.as_view_get, MovieDetailView.permission_classes.
    rewrite dispatch_authenticated by exact Hperm.
    unfold MovieDetailView.get, Movie_objects_get. simpl.
    rewrite List.filter_app. simpl. rewrite Z.eqb_refl.
    rewrite filter_no_key; [reflexivity|].
    intros y Hy. specialize (Hfresh y Hy). simpl in Hfresh. lia.
Qed.

Lemma MovieListCreateView_post_then_get_witness :
  exists m db',
    @MovieListCreateView.as_view_post (Sample.schema true)
      (Some Sample.alice) {["title" := VStr "Up"]} Sample.db0
      = (Returned (mkResponse (BMovie m) 201), db')
    /\ movie_id m = 3 /\ title m = "Up"
    /\ MovieDetailView.as_view_get (Some Sample.alice) 3 db'
       = (Returned (mkResponse (BMovie m) 200), db').
Proof.
  destruct (@MovieListCreateView_post_then_get (Sample.schema true)
              Sample.alice {["title" := VStr "Up"]}
              (mkMovieAttrs (Some "Up") None) Sample.db0)
    as (m & db' & Hpost & _ & _ & _ & Ht & _ & _ & _ & Hget).
  - reflexivity.
  - reflexivity.
  - assert (movie_id m = 3) as Hid.
    { vm_compute in Hpost. by injection Hpost as <- _. }
    exists m, db'. split; [exact Hpost|]. split; [exact Hid|].
    split; [exact Ht|]. rewrite <- Hid. exact Hget.
Defined.

Lemma search_movies_subset (qp : gmap string string) (l : list Movie) x :
  x ∈ search_movies qp l -> x ∈ l.
Proof.
  unfold search_movies. destruct (get_search_terms qp); [done|].
  intros Hx. by apply elem_of_List_filter in Hx as [Hx _].
Qed.

Lemma get_object_missing (qp : gmap string string) pk db :
  exists_movie db pk = false ->
  MovieViewSet.get_object qp pk db = inl (NotFound "Not found.").
Proof.
  intros Hno. unfold MovieViewSet.get_object.
  rewrite filter_no_key; [reflexivity|].
  intros y Hy. apply search_movies_subset in Hy.
  by apply exists_movie_false with (x := y) in Hno.
Qed.

Lemma get_object_stored (qp : gmap string string) (m : Movie) db :
  get_search_terms qp = [] ->
  NoDup (movie_id <$> movies db) -> m ∈ movies db ->
  MovieViewSet.get_object qp (movie_id m) db = inr m.
Proof.
  intros Hterms Hnd Hin. unfold MovieViewSet.get_object, search_movies.
  rewrite Hterms. by rewrite (filter_unique_key movie_id (movies db) m).
Qed.

(** X6. What any authenticated user does through [MovieViewSet] is what an
    admin does through the two movie views: create answers as the admin's
    POST and leaves the same tables, and, for a request without search
    terms on a stored movie under unique ids, update answers as the admin's
    PUT and destroy leaves the tables of the admin's DELETE. *)
Theorem MovieViewSet_acts_as_admin_views
    `{!Schema} (u admin : User) (qp : gmap string string) (m : Movie)
    (data : gmap string Value) (db : DB) :
  is_staff admin = true ->
  MovieViewSet.as_view_create (Some u) data db
    = MovieListCreateView.as_view_post (Some admin) data db
  /\ (get_search_terms qp = [] ->
      NoDup (movie_id <$> movies db) -> m ∈ movies db ->
      MovieViewSet.as_view_update (Some u) qp (movie_id m) data db
        = MovieDetailView.as_view_put (Some admin) (movie_id m) data db
      /\ snd (MovieViewSet.as_view_destroy (Some u) qp (movie_id m) db)
         = snd (MovieDetailView.as_view_delete (Some admin) (movie_id m) db)).
Proof.
  intros Hstaff.
  assert (forallb (fun p => has_permission p (Some admin)) [IsAdminUser]
            = true) as Hperm by (simpl; by rewrite Hstaff).
  split.
  - unfold MovieViewSet.as_view_create, MovieListCreateView.as_view_post,
      MovieListCreateView.permission_classes.
    rewrite dispatch_authenticated by reflexivity.
    rewrite dispatch_authenticated by exact Hperm.
    unfold MovieViewSet.create, MovieListCreateView.post.
    destruct (MovieSerializer_is_valid db None data) as [errs|a];
      [reflexivity|].
    by destruct (MovieSerializer_create a db).
  - intros Hterms Hnd Hin.
    pose proof (get_object_stored qp m db Hterms Hnd Hin) as Hobj.
    pose proof (Movie_objects_get_stored db m Hnd Hin) as Hget.
    unfold MovieViewSet.as_view_update, MovieViewSet.as_view_destroy,
      MovieDetailView.as_view_put, MovieDetailView.as_view_delete,
      MovieDetailView.permission_classes.
    rewrite !(dispatch_authenticated MovieViewSet.permission_classes)
      by reflexivity.
    rewrite !(dispatch_authenticated [IsAdminUser]) by exact Hperm.
    unfold MovieViewSet.update, MovieViewSet.destroy, MovieDetailView.put,
      MovieDetailView.delete.
    rewrite Hobj, Hget. split; [|reflexivity].
    destruct (MovieSerializer_is_valid db (Some m) data) as [errs|a];
      [reflexivity|].
    by destruct (MovieSerializer_update m a db).
Qed.

Lemma MovieViewSet_acts_as_admin_views_witness :
  @MovieViewSet.as_view_update (Sample.schema true) (Some Sample.bob) ∅ 2
    {["title" := VStr "Heat (1995)"]} Sample.db0
  = @MovieDetailView.as_view_put (Sample.schema true) (Some Sample.alice) 2
      {["title" := VStr "Heat (1995)"]} Sample.db0.
Proof.
  destruct (@MovieViewSet_acts_as_admin_views (Sample.schema true)
              Sample.bob Sample.alice ∅ Sample.heat
              {["title" := VStr "Heat (1995)"]} Sample.db0)
    as [_ Hstored].
  - reflexivity.
  - destruct Hstored as [Hupdate _].
    + reflexivity.
    + apply (bool_decide_unpack _). vm_compute. exact I.
    + simpl. right. left.
    + exact Hupdate.
Defined.

(** X7. [MovieViewSet] answers 404 to an update or a destroy of a movie
    that is not stored, whatever the query string, and leaves the tables
    unchanged. *)
Theorem MovieViewSet_missing_movie_404
    `{!Schema} (u : User) (qp : gmap string string) (pk : Z)
    (data : gmap string Value) (db : DB) :
  exists_movie db pk = false ->
  exists detail,
    MovieViewSet.as_view_update (Some u) qp pk data db
      = (Returned (mkResponse (BDetail detail) 404), db)
    /\ MovieViewSet.as_view_destroy (Some u) qp pk db
       = (Returned (mkResponse (BDetail detail) 404), db).
Proof.
  intros Hno. exists "Not found.".
  unfold MovieViewSet.as_view_update, MovieViewSet.as_view_destroy.
  rewrite !dispatch_authenticated by reflexivity.
  unfold MovieViewSet.update, MovieViewSet.destroy.
  rewrite (get_object_missing qp pk db Hno). split; reflexivity.
Qed.

Lemma MovieViewSet_missing_movie_witness :
  exists detail,
    MovieViewSet.as_view_destroy (Some Sample.bob) {["search" := "heat"]} 9
      Sample.db0
    = (Returned (mkResponse (BDetail detail) 404), Sample.db0).
Proof.
  destruct (@MovieViewSet_missing_movie_404 (Sample.schema true) Sample.bob
              {["search" := "heat"]} 9 ∅ Sample.db0) as (detail & _ & Hd).
  - reflexivity.
  - exists detail. exact Hd.
Defined.

(** ** The owner's reviews *)

Lemma List_filter_andb {A} (f g : A -> bool) (l : list A) :
  List.filter (fun x => f x && g x) l = List.filter g (List.filter f l).
Proof.
  induction l as [|x l IH]; [reflexivity|]. simpl.
  destruct (f x); simpl; [|exact IH].
  destruct (g x); by rewrite IH.
Qed.

Lemma Review_objects_get_owned db rv (u : User) :
  NoDup (review_id <$> reviews db) -> rv ∈ reviews db ->
  user rv = user_id u ->
  Review_objects_get db (review_id rv) u = inr rv.
Proof.
  intros Hnd Hin Hu. unfold Review_objects_get.
  rewrite (List_filter_andb (fun r => review_id r =? review_id rv)).
  rewrite (filter_unique_key review_id (reviews db) rv Hnd Hin). simpl.
  by replace (user rv =? user_id u) with true by lia.
Qed.

Lemma save_review_ids (r : Review) (l : list Review) :
  review_id r ∈ review_id <$> l ->
  review_id <$> save_review r l = review_id <$> l.
Proof.
  induction l as [|x l IH]; intros Hin; [by apply elem_of_nil in Hin|].
  simpl. destruct (review_id x =? review_id r) eqn:Hx.
  - rewrite !fmap_cons. f_equal. lia.
  - rewrite !fmap_cons. f_equal. apply IH.
    rewrite fmap_cons in Hin. apply elem_of_cons in Hin as [Heq | Hin];
      [lia | done].
Qed.

Lemma save_review_stored (r : Review) (l : list Review) : r ∈ save_review r l.
Proof.
  induction l as [|x l IH]; simpl; [by left|].
  destruct (review_id x =? review_id r); [by left | by right].
Qed.

Lemma save_review_others (r x : Review) (l : list Review) :
  review_id x <> review_id r -> x ∈ l <-> x ∈ save_review r l.
Proof.
  intros Hne. induction l as [|y l IH]; simpl.
  - rewrite list_elem_of_singleton. split; [|congruence].
    intros H. by apply elem_of_nil in H.
  - destruct (review_id y =? review_id r) eqn:Hy; rewrite !elem_of_cons.
    + apply Z.eqb_eq in Hy.
      split; (intros [Heq | H]; [subst; congruence | by right]).
    + by rewrite IH.
Qed.

(** X8. With unique review ids, the owner's DELETE of a stored review
    answers 200, removes that review and keeps every other review, the
    users and the movies; a second DELETE of the same id leaves with
    [Review.DoesNotExist]. *)
Theorem ReviewDetailView_owner_delete (u : User) (rv : Review) (db : DB) :
  NoDup (review_id <$> reviews db) -> rv ∈ reviews db ->
  user rv = user_id u ->
  exists db',
    ReviewDetailView.as_view_delete (Some u) (review_id rv) db
      = (Returned (mkResponse (BMessage "Review deleted successfully") 200),
         db')
    /\ (forall x, x ∈ reviews db' <->
          x ∈ reviews db /\ review_id x <> review_id rv)
    /\ users db' = users db /\ movies db' = movies db
    /\ ReviewDetailView.as_view_delete (Some u) (review_id rv) db'
       = (Raised (DoesNotExist "Review"), db').
Proof.
  intros Hnd Hin Hu.
  pose proof (Review_objects_get_owned db rv u Hnd Hin Hu) as Hget.
  exists (Review_delete rv db).
  assert (forall x, x ∈ reviews (Review_delete rv db) <->
            x ∈ reviews db /\ review_id x <> review_id rv) as Hleft
    by (intros x; apply elem_of_filter_negb_eqb).
  unfold ReviewDetailView.as_view_delete.
  rewrite !dispatch_authenticated by reflexivity.
  unfold as_user, ReviewDetailView.delete. rewrite Hget.
  split; [reflexivity|]. split; [exact Hleft|].
  split; [reflexivity|]. split; [reflexivity|].
  rewrite Review_objects_get_not_owned; [reflexivity|].
  intros x Hx Hid. apply Hleft in Hx as [_ Hx]. done.
Qed.

Lemma ReviewDetailView_owner_delete_witness :
  exists db',
    ReviewDetailView.as_view_delete (Some Sample.bob) 2 Sample.db0
      = (Returned (mkResponse (BMessage "Review deleted successfully") 200),
         db')
    /\ reviews db' = [Sample.review1; Sample.review3].
Proof.
  destruct (ReviewDetailView_owner_delete Sample.bob Sample.review2
              Sample.db0) as (db' & Hdel & _).
  - apply (bool_decide_unpack _). vm_compute. exact I.
  - simpl. right. left.
  - reflexivity.
  - exists db'. split; [exact Hdel|].
    vm_compute in Hdel. by injection Hdel as <-.
Defined.

(** X9. With unique review ids, the owner's PUT on a stored review either
    answers 400 with the serializer's errors, or leaves with an integrity
    error, both without a change, or answers 200 with the updated review:
    its id and creation time are those of the stored review, each other
    field is the validated value where there is one and the stored value
    otherwise, and the ids of the table, every other review, the users and
    the movies are as before. *)
Theorem ReviewDetailView_owner_put
    `{!Schema} (u : User) (rv : Review) (data : gmap string Value) (db : DB) :
  NoDup (review_id <$> reviews db) -> rv ∈ reviews db ->
  user rv = user_id u ->
  let res := ReviewDetailView.as_view_put (Some u) (review_id rv) data db in
  match ReviewSerializer_is_valid db (Some rv) data with
  | inl errs => res = (Returned (mkResponse (BErrors errs) 400), db)
  | inr a =>
      res = (Raised IntegrityError, db)
      \/ exists r,
           res = (Returned (mkResponse (BReview r) 200), snd res)
           /\ review_id r = review_id rv
           /\ created_at r = created_at rv
           /\ rating r = default (rating rv) (a_rating a)
           /\ body r = default (body rv) (a_body a)
           /\ movie r = default (movie rv) (a_movie a)
           /\ user r = default (user rv) (a_user a)
           /\ r ∈ reviews (snd res)
           /\ review_id <$> reviews (snd res) = review_id <$> reviews db
           /\ (forall x, review_id x <> review_id rv ->
                 x ∈ reviews db <-> x ∈ reviews (snd res))
           /\ users (snd res) = users db /\ movies (snd res) = movies db
  end.
Proof.
  intros Hnd Hin Hu res. subst res.
  pose proof (Review_objects_get_owned db rv u Hnd Hin Hu) as Hget.
  unfold ReviewDetailView.as_view_put.
  rewrite dispatch_authenticated by reflexivity.
  unfold as_user, ReviewDetailView.put. rewrite Hget.
  destruct (ReviewSerializer_is_valid db (Some rv) data) as [errs|a];
    [reflexivity|].
  unfold ReviewSerializer_update.
  destruct (exists_movie db _ && exists_user db _); [|by left].
  right. eexists. split; [reflexivity|]. simpl.
  repeat split; try done.
  - apply save_review_stored.
  - apply save_review_ids. simpl. by apply list_elem_of_fmap_2.
  - by apply save_review_others.
  - by apply save_review_others.
Qed.

Lemma ReviewDetailView_owner_put_witness :
  exists r,
    fst (@ReviewDetailView.as_view_put (Sample.schema true) (Some Sample.bob)
           2 {["rating" := VInt 1]} Sample.db0)
      = Returned (mkResponse (BReview r) 200)
    /\ rating r = 1 /\ body r = "fine" /\ created_at r = 101.
Proof.
  pose proof (@ReviewDetailView_owner_put (Sample.schema true) Sample.bob
                Sample.review2 {["rating" := VInt 1]} Sample.db0) as Hput.
  cbv zeta in Hput.
  replace (@ReviewSerializer_is_valid (Sample.schema true) Sample.db0
             (Some Sample.review2) {["rating" := VInt 1]})
    with (@inr Errors ReviewAttrs (mkReviewAttrs None None (Some 1) None))
    in Hput by reflexivity.
  destruct Hput as [Hfail | (r & Hres & _ & Hc & Hr & Hb & _)].
  - apply (bool_decide_unpack _). vm_compute. exact I.
  - simpl. right. left.
  - reflexivity.
  - vm_compute in Hfail. discriminate.
  - exists r. split; [exact (f_equal fst Hres)|]. split; [exact Hr|].
    split; [exact Hb | exact Hc].
Defined.

(** ** What a created review looks like *)

Lemma ReviewSerializer_create_row a now db rv db' :
  ReviewSerializer_create a now db = inr (rv, db') ->
  created_at rv = now
  /\ a_rating a = Some (rating rv)
  /\ body rv = default "" (a_body a)
  /\ (forall x, x ∈ reviews db -> review_id x < review_id rv)
  /\ exists_movie db (movie rv) = true
  /\ exists_user db (user rv) = true.
Proof.
  unfold ReviewSerializer_create, Review_objects_create.
  destruct (a_movie a) as [mv|], (a_user a) as [us|], (a_rating a) as [rt|];
    try discriminate.
  destruct (exists_movie db mv && exists_user db us) eqn:Hfk; [|discriminate].
  apply andb_true_iff in Hfk as [Hm Hu].
  intros [= <- <-]. simpl. repeat split; try done.
  intros x Hx. apply next_id_fresh. by apply list_elem_of_fmap_2.
Qed.

Lemma ReviewListCreateView_post_created `{!Schema} (u : User) movie_id
    (data : gmap string Value) now db rv :
  fst (ReviewListCreateView.as_view_post (Some u) movie_id data now db)
    = Returned (mkResponse (BReview rv) 201) ->
  exists a db',
    ReviewSerializer_is_valid db None
      (<["user":=VInt (user_id u)]> (<["movie":=VInt movie_id]> data))
      = inr a
    /\ ReviewSerializer_create a now db = inr (rv, db').
Proof.
  unfold ReviewListCreateView.as_view_post.
  rewrite dispatch_authenticated by reflexivity.
  unfold as_user, ReviewListCreateView.post.
  destruct (ReviewSerializer_is_valid db None _) as [errs|a];
    [discriminate|].
  destruct (ReviewSerializer_create a now db) as [e|[r db']] eqn:Hc; simpl.
  - destruct e; discriminate.
  - intros [= ->]. eauto.
Qed.

Lemma CreateMovieReviewView_post_created `{!Schema} (u : User) movie_id
    (data : gmap string Value) now db rv :
  fst (CreateMovieReviewView.as_view_post (Some u) movie_id data now db)
    = Returned (mkResponse (BReview rv) 201) ->
  exists a db',
    ReviewSerializer_is_valid db None data = inr a
    /\ ReviewSerializer_create (with_kwargs a movie_id (user_id u)) now db
       = inr (rv, db').
Proof.
  unfold CreateMovieReviewView.as_view_post.
  rewrite dispatch_authenticated by reflexivity.
  unfold as_user, CreateMovieReviewView.post.
  destruct (Movie_objects_get db movie_id) as [e|m] eqn:Hget.
  { destruct e; discriminate. }
  apply Movie_objects_get_id in Hget. rewrite Hget.
  destruct (ReviewSerializer_is_valid db None data) as [errs|a];
    [discriminate|].
  destruct (ReviewSerializer_create _ now db) as [e|[r db']] eqn:Hc; simpl.
  - destruct e; discriminate.
  - intros [= ->]. eauto.
Qed.

(** X10. A review that a movie-scoped creation view answers with 201
    carries the time of the request as its creation time, an id above every
    stored review id, a movie and a user that are stored rows, and the
    rating and text that the serializer validated (the empty text when it
    validated none): validated from the body with the path's movie and the
    acting user written in on [ReviewListCreateView], from the body as sent
    on [CreateMovieReviewView]. *)
Theorem created_review_row
    `{!Schema} (u : User) (movie_id : Z) (data : gmap string Value)
    (now : Z) (db : DB) (rv : Review) :
  (fst (ReviewListCreateView.as_view_post (Some u) movie_id data now db)
     = Returned (mkResponse (BReview rv) 201) ->
   created_at rv = now
   /\ (forall x, x ∈ reviews db -> review_id x < review_id rv)
   /\ exists_movie db (movie rv) = true
   /\ exists_user db (user rv) = true
   /\ exists a,
        ReviewSerializer_is_valid db None
          (<["user":=VInt (user_id u)]> (<["movie":=VInt movie_id]> data))
          = inr a
        /\ a_rating a = Some (rating rv)
        /\ body rv = default "" (a_body a))
  /\ (fst (CreateMovieReviewView.as_view_post (Some u) movie_id data now db)
       = Returned (mkResponse (BReview rv) 201) ->
      created_at rv = now
      /\ (forall x, x ∈ reviews db -> review_id x < review_id rv)
      /\ exists_movie db (movie rv) = true
      /\ exists_user db (user rv) = true
      /\ exists a,
           ReviewSerializer_is_valid db None data = inr a
           /\ a_rating a = Some (rating rv)
           /\ body rv = default "" (a_body a)).
Proof.
  split; intros Hres.
  - apply ReviewListCreateView_post_created in Hres as (a & db' & Hv & Hc).
    apply ReviewSerializer_create_row in Hc
      as (Hnow & Hrt & Hbody & Hfresh & Hm & Hu).
    repeat split; try done. exists a. eauto.
  - apply CreateMovieReviewView_post_created in Hres as (a & db' & Hv & Hc).
    apply ReviewSerializer_create_row in Hc
      as (Hnow & Hrt & Hbody & Hfresh & Hm & Hu).
    repeat split; try done. exists a. eauto.
Qed.

Lemma created_review_row_witness :
  fst (@CreateMovieReviewView.as_view_post (Sample.schema true)
         (Some Sample.bob) 2 {["rating" := VInt 4]} 7 Sample.db0)
    = Returned (mkResponse (BReview (mkReview 4 2 2 4 "" 7)) 201)
  /\ created_at (mkReview 4 2 2 4 "" 7) = 7
  /\ exists_movie Sample.db0 (movie (mkReview 4 2 2 4 "" 7)) = true.
Proof.
  assert (fst (@CreateMovieReviewView.as_view_post (Sample.schema true)
                 (Some Sample.bob) 2 {["rating" := VInt 4]} 7 Sample.db0)
          = Returned (mkResponse (BReview (mkReview 4 2 2 4 "" 7)) 201))
    as Hres by reflexivity.
  split; [exact Hres|].
  destruct (@created_review_row (Sample.schema true) Sample.bob 2
              {["rating" := VInt 4]} 7 Sample.db0 (mkReview 4 2 2 4 "" 7))
    as [_ Hcreate].
  destruct (Hcreate Hres) as (Hnow & _ & Hm & _).
  split; [exact Hnow | exact Hm].
Defined.

(** X11. Creation and listing agree: after either movie-scoped creation
    view has answered 201 with a review, the reviews that the movie-scoped
    list of the same movie filters out of the tables, for a request without
    filters, are those of before followed by the new review; the tables keep
    unique review ids and every review's movie stored. *)
Theorem created_review_is_listed
    `{!Schema} (u : User) (movie_id : Z) (data : gmap string Value)
    (now : Z) (db : DB) (rv : Review) (res : Outcome * DB) :
  res = ReviewListCreateView.as_view_post (Some u) movie_id data now db
  \/ res = CreateMovieReviewView.as_view_post (Some u) movie_id data now db ->
  fst res = Returned (mkResponse (BReview rv) 201) ->
  ReviewListCreateView.filtered movie_id ∅ (snd res)
    = inr (filter_movie_id movie_id (reviews db) ++ [rv])%list
  /\ (NoDup (review_id <$> reviews db) ->
      NoDup (review_id <$> reviews (snd res)))
  /\ (reviews_have_movies db -> reviews_have_movies (snd res)).
Proof.
  intros Hwhich Hres.
  assert (creates_for u movie_id db res) as Hc.
  { destruct Hwhich as [-> | ->];
      [apply ReviewListCreateView_post_creates
      |apply CreateMovieReviewView_post_creates]. }
  assert (created_at rv = now
          /\ (forall x, x ∈ reviews db -> review_id x < review_id rv)
          /\ exists_movie db (movie rv) = true) as (_ & Hfresh & Hmovie).
  { destruct Hwhich as [-> | ->].
    - apply ReviewListCreateView_post_created in Hres as (a & d & _ & Hcr).
      apply ReviewSerializer_create_row in Hcr as (? & _ & _ & ? & ? & _).
      auto.
    - apply CreateMovieReviewView_post_created in Hres as (a & d & _ & Hcr).
      apply ReviewSerializer_create_row in Hcr as (? & _ & _ & ? & ? & _).
      auto. }
  destruct Hc as [(rv' & Hres' & Hdb & Hu & Hm) | [Hno _]].
  2: { exfalso. apply Hno. by rewrite Hres. }
  assert (rv' = rv) as -> by congruence.
  rewrite Hdb. split; [|split].
  - unfold ReviewListCreateView.filtered, filter_movie_id.
    rewrite !lookup_empty. simpl. rewrite List.filter_app. simpl.
    by replace (movie rv =? movie_id) with true by lia.
  - intros Hnd. simpl. rewrite fmap_app. apply NoDup_app. split; [done|].
    split; [|apply NoDup_singleton].
    intros k Hk Hk'. apply list_elem_of_singleton in Hk'. subst k.
    apply list_elem_of_fmap in Hk as (x & Heq & Hx).
    specialize (Hfresh x Hx). lia.
  - intros Hfk r Hr. simpl in Hr. unfold exists_movie. simpl.
    apply elem_of_app in Hr as [Hr | Hr]; [by apply Hfk|].
    apply list_elem_of_singleton in Hr. by subst r.
Qed.

Lemma created_review_is_listed_witness :
  ReviewListCreateView.filtered 2 ∅
    (snd (@CreateMovieReviewView.as_view_post (Sample.schema true)
            (Some Sample.bob) 2 {["rating" := VInt 4]} 7 Sample.db0))
  = inr [Sample.review3; mkReview 4 2 2 4 "" 7].
Proof.
  destruct (@created_review_is_listed (Sample.schema true) Sample.bob 2
              {["rating" := VInt 4]} 7 Sample.db0 (mkReview 4 2 2 4 "" 7)
              (@CreateMovieReviewView.as_view_post (Sample.schema true)
                 (Some Sample.bob) 2 {["rating" := VInt 4]} 7 Sample.db0))
    as (Hlist & _).
  - right. reflexivity.
  - reflexivity.
  - exact Hlist.
Defined.

(** ** The two review lists side by side *)

Lemma List_filter_comm {A} (f g : A -> bool) (l : list A) :
  List.filter f (List.filter g l) = List.filter g (List.filter f l).
Proof.
  rewrite <- !List_filter_andb. apply List.filter_ext.
  intros x. apply andb_comm.
Qed.

Lemma List_filter_sublist {A} (f : A -> bool) (l : list A) :
  List.filter f l `sublist_of` l.
Proof.
  induction l as [|x l IH]; [constructor|]. simpl.
  destruct (f x); by constructor.
Qed.

(** X12. The movie-scoped list is the generic list restricted to the
    movie: for the same query string and tables, where [get_queryset]
    returns a queryset the movie-scoped filters leave its reviews of the
    movie, and where it returns a 400 response the movie-scoped list returns
    the same response. *)
Theorem movie_scoped_list_restricts_generic_list
    (movie_id : Z) (qp : gmap string string) (db : DB) :
  match ReviewViewSet.get_queryset qp db with
  | QuerySet rows =>
      ReviewListCreateView.filtered movie_id qp db
        = inr (filter_movie_id movie_id rows)
  | ResponseObj response =>
      ReviewListCreateView.filtered movie_id qp db = inl response
  end.
Proof.
  unfold ReviewViewSet.get_queryset, ReviewListCreateView.filtered.
  assert (match qp !! "movie_title" with
          | Some t => if Py.truthy t
                      then filter_movie_title db t
                             (filter_movie_id movie_id (reviews db))
                      else filter_movie_id movie_id (reviews db)
          | None => filter_movie_id movie_id (reviews db)
          end
          = filter_movie_id movie_id
              match qp !! "movie_title" with
              | Some t => if Py.truthy t
                          then filter_movie_title db t (reviews db)
                          else reviews db
              | None => reviews db
              end) as ->.
  { destruct (qp !! "movie_title") as [t|]; [|reflexivity].
    destruct (Py.truthy t); [|reflexivity].
    apply List_filter_comm. }
  destruct (qp !! "rating") as [s|]; [|reflexivity].
  destruct (Py.truthy s); [|reflexivity].
  destruct (Py.int s) as [r|]; [|reflexivity].
  destruct ((1 <=? r) && (r <=? 5)); [|reflexivity].
  f_equal. apply List_filter_comm.
Qed.

(** X13. The filters only drop rows: what [get_queryset] returns as a
    queryset, and what the movie-scoped filters leave, is a sublist of the
    review table, in table order, so that unique review ids stay unique in
    the result set. *)
Theorem result_set_is_sublist_of_table
    (movie_id : Z) (qp : gmap string string) (db : DB) (rows : list Review) :
  ReviewViewSet.get_queryset qp db = QuerySet rows
  \/ ReviewListCreateView.filtered movie_id qp db = inr rows ->
  rows `sublist_of` reviews db
  /\ (NoDup (review_id <$> reviews db) -> NoDup (review_id <$> rows)).
Proof.
  intros Hrows.
  assert (rows `sublist_of` reviews db) as Hsub.
  { destruct Hrows as [Hq | Hf].
    - revert Hq. unfold ReviewViewSet.get_queryset.
      destruct (qp !! "movie_title") as [t|];
        [destruct (Py.truthy t)|];
        (destruct (qp !! "rating") as [s|];
         [destruct (Py.truthy s);
          [destruct (Py.int s) as [r|];
           [destruct ((1 <=? r) && (r <=? 5))|]|]|]);
        intros [= <-];
        unfold filter_rating, filter_movie_title;
        repeat (etrans; [apply List_filter_sublist|]); done.
    - revert Hf. unfold ReviewListCreateView.filtered.
      destruct (qp !! "movie_title") as [t|];
        [destruct (Py.truthy t)|];
        (destruct (qp !! "rating") as [s|];
         [destruct (Py.truthy s);
          [destruct (Py.int s) as [r|];
           [destruct ((1 <=? r) && (r <=? 5))|]|]|]);
        intros [= <-];
        unfold filter_rating, filter_movie_title, filter_movie_id;
        repeat (etrans; [apply List_filter_sublist|]); done. }
  split; [exact Hsub|].
  intros Hnd. eapply sublist_NoDup; [exact Hnd|].
  by apply fmap_sublist.
Qed.

Lemma result_set_is_sublist_witness :
  [Sample.review1; Sample.review3] `sublist_of` reviews Sample.db0.
Proof.
  destruct (result_set_is_sublist_of_table 1 {["rating" := "5"]} Sample.db0
              [Sample.review1; Sample.review3]) as [Hsub _].
  - left. reflexivity.
  - exact Hsub.
Defined.

(** ** What a page holds *)

Lemma slice_take_drop (rows : list Review) bottom per_page :
  0 <= bottom -> 0 < per_page ->
  slice rows bottom
    (if Z.of_nat (length rows) <=? bottom + per_page
     then Z.of_nat (length rows) else bottom + per_page)
  = take (Z.to_nat per_page) (drop (Z.to_nat bottom) rows).
Proof.
  intros Hb Hpp. unfold slice.
  destruct (Z.of_nat (length rows) <=? bottom + per_page) eqn:Hc.
  - apply Z.leb_le in Hc.
    rewrite !take_ge; [reflexivity | |]; rewrite length_drop; lia.
  - f_equal. lia.
Qed.

(** The page that a valid page number gives. *)
Lemma paginate_queryset_valid_page rows (qp : gmap string string) s n :
  qp !! "page" = Some s -> Py.int s = Some n ->
  1 <= n <= ceil_div (Z.max 1 (Z.of_nat (length rows)))
              (get_page_size ReviewPagination qp) ->
  paginate_queryset ReviewPagination (QuerySet rows) qp
  = inr (Some (mkPage
      (take (Z.to_nat (get_page_size ReviewPagination qp))
         (drop (Z.to_nat ((n - 1) * get_page_size ReviewPagination qp)) rows))
      n (Z.of_nat (length rows))
      (ceil_div (Z.max 1 (Z.of_nat (length rows)))
         (get_page_size ReviewPagination qp)))).
Proof.
  intros Hpage Hint Hn. pose proof (get_page_size_bounds qp) as Hb.
  unfold paginate_queryset, get_page_number, page_query_param.
  rewrite Hpage.
  destruct (get_page_size ReviewPagination qp =? 0) eqn:Hz; [lia|].
  destruct s as [|c s']; [discriminate|]. cbn [Py.truthy].
  case_bool_decide as Hin.
  { apply list_elem_of_singleton in Hin. rewrite Hin in Hint. discriminate. }
  unfold DRF.page, validate_number, num_pages. simpl. rewrite Hint.
  replace (n <? 1) with false by lia.
  replace (_ <? n) with false by lia. simpl.
  rewrite slice_take_drop by nia. reflexivity.
Qed.

(** X14. A valid page number gets exactly its slice.  For a page parameter,
    ASCII text beside an ASCII page_size when there is one, that parses to n
    with 1 <= n <= the number of pages, both list endpoints answer 200
    with the count of the whole result set, the rows of the
    result set from position (n-1) * page size on, at most page size of
    them, a next link to n+1 unless n is the last page and a previous link
    to n-1 unless n is 1; the tables are unchanged. *)
Theorem list_page_is_the_slice
    (u : User) (movie_id : Z) (qp : gmap string string) (db : DB)
    (rows : list Review) (s : string) (n : Z) :
  let size := get_page_size ReviewPagination qp in
  let last := ceil_div (Z.max 1 (Z.of_nat (length rows))) size in
  let answer :=
    (Returned (mkResponse
       (BPage (Z.of_nat (length rows))
          (if n <? last then Some (n + 1) else None)
          (if 1 <? n then Some (n - 1) else None)
          (take (Z.to_nat size) (drop (Z.to_nat ((n - 1) * size)) rows)))
       200), db) in
  qp !! "page" = Some s -> Py.isascii s = true ->
  ascii_param qp "page_size" = true ->
  Py.int s = Some n -> 1 <= n <= last ->
  (ReviewViewSet.get_queryset qp db = QuerySet rows ->
   ReviewViewSet.as_view_list (Some u) qp db = answer)
  /\ (ReviewListCreateView.filtered movie_id qp db = inr rows ->
      ReviewListCreateView.as_view_get (Some u) movie_id qp db = answer).
Proof.
  intros size last answer Hpage _ _ Hint Hn.
  pose proof (paginate_queryset_valid_page rows qp s n Hpage Hint Hn) as Hp.
  split; intros Hrows.
  - rewrite (list_outcome u qp db rows Hrows), Hp. reflexivity.
  - rewrite (get_outcome u movie_id qp db rows Hrows), Hp. reflexivity.
Qed.

Lemma list_page_is_the_slice_witness :
  ReviewViewSet.as_view_list (Some Sample.bob)
    (<["page" := "2"]> {["page_size" := "2"]}) Sample.db0
  = (Returned (mkResponse (BPage 3 None (Some 1) [Sample.review3]) 200),
     Sample.db0).
Proof.
  destruct (list_page_is_the_slice Sample.bob 1
              (<["page" := "2"]> {["page_size" := "2"]}) Sample.db0
              (reviews Sample.db0) "2" 2) as [Hlist _].
  - reflexivity.
  - reflexivity.
  - reflexivity.
  - reflexivity.
  - vm_compute. split; discriminate.
  - apply Hlist. reflexivity.
Defined.

(** X15. No row is out of reach: the row at position i of a result set is
    on page i / page size + 1, at position i mod page size, and that page
    number, given as ASCII text beside an ASCII page_size when there is one,
    is never refused. *)
Theorem every_row_is_on_its_page
    (qp : gmap string string) (rows : list Review) (i : nat) (rv : Review)
    (s : string) :
  let size := get_page_size ReviewPagination qp in
  rows !! i = Some rv ->
  qp !! "page" = Some s -> Py.isascii s = true ->
  ascii_param qp "page_size" = true ->
  Py.int s = Some (Z.of_nat i / size + 1) ->
  exists p,
    paginate_queryset ReviewPagination (QuerySet rows) qp = inr (Some p)
    /\ number p = Z.of_nat i / size + 1
    /\ page_rows p !! Z.to_nat (Z.of_nat i mod size) = Some rv.
Proof.
  intros size Hi Hpage _ _ Hint.
  pose proof (get_page_size_bounds qp) as Hb. fold size in Hb.
  apply lookup_lt_Some in Hi as Hlt.
  assert (0 <= Z.of_nat i / size) as Hq by (apply Z.div_pos; lia).
  pose proof (Z.div_mod (Z.of_nat i) size ltac:(lia)) as Hdm.
  pose proof (Z.mod_pos_bound (Z.of_nat i) size ltac:(lia)) as Hmod.
  assert (Z.of_nat i / size + 1
          <= ceil_div (Z.max 1 (Z.of_nat (length rows))) size) as Hlast.
  { unfold ceil_div.
    assert (Z.of_nat i / size
            <= (Z.max 1 (Z.of_nat (length rows)) + size - 1) / size - 1);
      [|lia].
    replace ((Z.max 1 (Z.of_nat (length rows)) + size - 1) / size - 1)
      with ((Z.max 1 (Z.of_nat (length rows)) - 1) / size).
    - apply Z.div_le_mono; lia.
    - replace (Z.max 1 (Z.of_nat (length rows)) + size - 1)
        with (Z.max 1 (Z.of_nat (length rows)) - 1 + 1 * size) by lia.
      rewrite Z.div_add by lia. lia. }
  eexists. split.
  { apply (paginate_queryset_valid_page rows qp s _ Hpage Hint).
    fold size. lia. }
  split; [reflexivity|]. simpl. fold size.
  rewrite lookup_take_lt by lia. rewrite lookup_drop.
  replace (Z.to_nat ((Z.of_nat i / size + 1 - 1) * size)
           + Z.to_nat (Z.of_nat i mod size))%nat with i by nia.
  exact Hi.
Qed.

Lemma every_row_is_on_its_page_witness :
  exists p,
    paginate_queryset ReviewPagination (QuerySet (reviews Sample.db0))
      (<["page" := "2"]> {["page_size" := "2"]}) = inr (Some p)
    /\ page_rows p !! 0%nat = Some Sample.review3.
Proof.
  destruct (every_row_is_on_its_page
              (<["page" := "2"]> {["page_size" := "2"]})
              (reviews Sample.db0) 2 Sample.review3 "2")
    as (p & Hp & _ & Hrow).
  - reflexivity.
  - reflexivity.
  - reflexivity.
  - reflexivity.
  - reflexivity.
  - exists p. split; [exact Hp | exact Hrow].
Defined.





(** X17. A page_size parameter of ASCII characters that does not parse as
    an integer, or that parses to zero or to a negative number, is ignored:
    the page size is the default of 10. *)
Theorem page_size_falls_back_to_default (qp : gmap string string) (s : string) :
  qp !! "page_size" = Some s -> Py.isascii s = true ->
  (Py.int s = None \/ exists n, Py.int s = Some n /\ n <= 0) ->
  get_page_size ReviewPagination qp = 10.
Proof.
  intros Hs _ Hbad. unfold get_page_size, positive_int. simpl. rewrite Hs.
  destruct Hbad as [-> | (n & -> & Hn)]; [reflexivity|].
  destruct (n <? 0) eqn:Hneg; [reflexivity|].
  by replace (n =? 0) with true by lia.
Qed.

Lemma page_size_falls_back_witness :
  get_page_size ReviewPagination {["page_size" := "0"]} = 10
  /\ get_page_size ReviewPagination {["page_size" := "many"]} = 10.
Proof.
  split.
  - apply (page_size_falls_back_to_default _ "0");
      [reflexivity | reflexivity |].
    right. exists 0. split; [reflexivity | lia].
  - apply (page_size_falls_back_to_default _ "many");
      [reflexivity | reflexivity |].
    left. reflexivity.
Defined.

(** X18. A page parameter of ASCII characters that is neither empty nor
    "last" and does not parse as an integer, or parses to a number below 1,
    is answered with 404 and the detail "Invalid page." by both list
    endpoints, whatever the result set holds. *)
Theorem bad_page_parameter_404
    (u : User) (movie_id : Z) (qp : gmap string string) (db : DB)
    (rows : list Review) (s : string) :
  qp !! "page" = Some s -> s <> "" -> s <> "last" ->
  Py.isascii s = true ->
  (Py.int s = None \/ exists n, Py.int s = Some n /\ n < 1) ->
  (ReviewViewSet.get_queryset qp db = QuerySet rows ->
   ReviewViewSet.as_view_list (Some u) qp db = (invalid_page, db))
  /\ (ReviewListCreateView.filtered movie_id qp db = inr rows ->
      ReviewListCreateView.as_view_get (Some u) movie_id qp db
        = (invalid_page, db)).
Proof.
  intros Hpage Hne Hlast _ Hbad.
  assert (paginate_queryset ReviewPagination (QuerySet rows) qp
          = inl (NotFound "Invalid page.")) as Hp.
  { pose proof (get_page_size_bounds qp) as Hb.
    unfold paginate_queryset, get_page_number, page_query_param.
    rewrite Hpage.
    destruct (get_page_size ReviewPagination qp =? 0) eqn:Hz; [lia|].
    destruct s as [|c s']; [congruence|]. cbn [Py.truthy].
    case_bool_decide as Hin.
    { by apply list_elem_of_singleton in Hin. }
    unfold DRF.page, validate_number, num_pages. simpl.
    destruct Hbad as [-> | (n & -> & Hn)]; [reflexivity|].
    by replace (n <? 1) with true by lia. }
  split; intros Hrows.
  - rewrite (list_outcome u qp db rows Hrows), Hp. reflexivity.
  - rewrite (get_outcome u movie_id qp db rows Hrows), Hp. reflexivity.
Qed.

Lemma bad_page_parameter_witness :
  ReviewViewSet.as_view_list (Some Sample.bob) {["page" := "0"]} Sample.db0
  = (invalid_page, Sample.db0).
Proof.
  destruct (bad_page_parameter_404 Sample.bob 1 {["page" := "0"]} Sample.db0
              (reviews Sample.db0) "0") as [Hlist _].
  - reflexivity.
  - discriminate.
  - discriminate.
  - reflexivity.
  - right. exists 0. split; [reflexivity | lia].
  - apply Hlist. reflexivity.
Defined.



(** ** How the filter parameters are read *)

Lemma int_some_truthy s r : Py.int s = Some r -> Py.truthy s = true.
Proof. by destruct s. Qed.

Lemma lower_truthy s : Py.truthy (Py.lower s) = Py.truthy s.
Proof. by destruct s. Qed.

Lemma paginate_queryset_other_key ol (qp : gmap string string) k v v' :
  k <> "page" -> k <> "page_size" ->
  paginate_queryset ReviewPagination ol (<[k:=v]> qp) =
  paginate_queryset ReviewPagination ol (<[k:=v']> qp).
Proof.
  intros Hpage Hsize. apply paginate_queryset_ext.
  - unfold page_query_param. by rewrite !lookup_insert_ne.
  - intros p [= <-]. by rewrite !lookup_insert_ne.
Qed.

(** X20. The rating parameter is read as a number: two rating parameters
    of ASCII characters that parse to the same integer get the same answer
    from both list endpoints, whatever their spelling (white space around,
    a plus sign, leading zeros). *)
Theorem rating_read_as_number
    (request_user : option User) (movie_id : Z) (qp : gmap string string)
    (db : DB) (s s' : string) (r : Z) :
  Py.isascii s = true -> Py.isascii s' = true ->
  Py.int s = Some r -> Py.int s' = Some r ->
  ReviewViewSet.as_view_list request_user (<["rating":=s]> qp) db
    = ReviewViewSet.as_view_list request_user (<["rating":=s']> qp) db
  /\ ReviewListCreateView.as_view_get request_user movie_id
       (<["rating":=s]> qp) db
     = ReviewListCreateView.as_view_get request_user movie_id
         (<["rating":=s']> qp) db.
Proof.
  intros _ _ Hs Hs'.
  pose proof (int_some_truthy s r Hs) as Ht.
  pose proof (int_some_truthy s' r Hs') as Ht'.
  unfold ReviewViewSet.as_view_list, ReviewListCreateView.as_view_get.
  split; apply dispatch_ext.
  - unfold ReviewViewSet.list, ReviewViewSet.pagination_class,
      ReviewViewSet.get_queryset.
    lookups. rewrite Ht, Ht', Hs, Hs'.
    by rewrite (paginate_queryset_other_key _ qp "rating" s s').
  - unfold ReviewListCreateView.get, ReviewListCreateView.filtered.
    lookups. rewrite Ht, Ht', Hs, Hs'.
    destruct ((1 <=? r) && (r <=? 5)); [|reflexivity].
    by rewrite (paginate_queryset_other_key _ qp "rating" s s').
Qed.

Lemma rating_read_as_number_witness :
  ReviewViewSet.as_view_list (Some Sample.bob) (<["rating":=" +05 "]> ∅)
    Sample.db0
  = ReviewViewSet.as_view_list (Some Sample.bob) (<["rating":="5"]> ∅)
      Sample.db0.
Proof.
  destruct (rating_read_as_number (Some Sample.bob) 1 ∅ Sample.db0
              " +05 " "5" 5) as [Hlist _].
  - reflexivity.
  - reflexivity.
  - reflexivity.
  - reflexivity.
  - exact Hlist.
Defined.

(** X21. The movie_title parameter is read without regard to case: two
    parameters that are equal after case folding get the same answer from
    both list endpoints. *)
Theorem movie_title_read_without_case
    (request_user : option User) (movie_id : Z) (qp : gmap string string)
    (db : DB) (t t' : string) :
  Py.lower t = Py.lower t' ->
  ReviewViewSet.as_view_list request_user (<["movie_title":=t]> qp) db
    = ReviewViewSet.as_view_list request_user (<["movie_title":=t']> qp) db
  /\ ReviewListCreateView.as_view_get request_user movie_id
       (<["movie_title":=t]> qp) db
     = ReviewListCreateView.as_view_get request_user movie_id
         (<["movie_title":=t']> qp) db.
Proof.
  intros Hlow.
  assert (Py.truthy t = Py.truthy t') as Htruthy
    by (rewrite <- (lower_truthy t), <- (lower_truthy t'); by rewrite Hlow).
  assert (forall qs, filter_movie_title db t qs = filter_movie_title db t' qs)
    as Hfilter.
  { intros qs. unfold filter_movie_title. apply List.filter_ext.
    intros rv. unfold title_matches, icontains. by rewrite Hlow. }
  unfold ReviewViewSet.as_view_list, ReviewListCreateView.as_view_get.
  split; apply dispatch_ext.
  - unfold ReviewViewSet.list, ReviewViewSet.pagination_class,
      ReviewViewSet.get_queryset.
    lookups. rewrite Htruthy, Hfilter.
    by rewrite (paginate_queryset_other_key _ qp "movie_title" t t').
  - unfold ReviewListCreateView.get, ReviewListCreateView.filtered.
    lookups. rewrite Htruthy, Hfilter.
    destruct (qp !! "rating") as [s|];
      [destruct (Py.truthy s);
       [destruct (Py.int s) as [r|];
        [destruct ((1 <=? r) && (r <=? 5))|]|]|];
      try reflexivity;
      by rewrite (paginate_queryset_other_key _ qp "movie_title" t t').
Qed.

Lemma movie_title_read_without_case_witness :
  ReviewViewSet.as_view_list (Some Sample.bob) (<["movie_title":="MATRIX"]> ∅)
    Sample.db0
  = ReviewViewSet.as_view_list (Some Sample.bob)
      (<["movie_title":="matrix"]> ∅) Sample.db0.
Proof.
  destruct (movie_title_read_without_case (Some Sample.bob) 1 ∅ Sample.db0
              "MATRIX" "matrix") as [Hlist _].
  - reflexivity.
  - exact Hlist.
Defined.

(** ** The user table under a profile update *)

Lemma save_user_ids (u : User) (l : list User) :
  user_id u ∈ user_id <$> l ->
  user_id <$> save_user u l = user_id <$> l.
Proof.
  induction l as [|x l IH]; intros Hin; [by apply elem_of_nil in Hin|].
  simpl. destruct (user_id x =? user_id u) eqn:Hx.
  - rewrite !fmap_cons. f_equal. lia.
  - rewrite !fmap_cons. f_equal. apply IH.
    rewrite fmap_cons in Hin. apply elem_of_cons in Hin as [Heq | Hin];
      [lia | done].
Qed.

(** X22. A profile update of a stored user rewrites that user's row in
    place: the column of user ids is as before, so no row is added or lost
    and unique ids stay unique. *)
Theorem profile_update_keeps_user_ids
    `{!Auth} `{!External} (u : User) (data : gmap string JSON) (db : DB) :
  user_id u ∈ user_id <$> users db ->
  user_id <$> users (snd (UserUpdateView.as_view_put (Some u) data db))
    = user_id <$> users db.
Proof.
  intros Hin. rewrite as_view_put_unfold. simpl.
  destruct (put_outcome data u db)
    as [(u' & -> & _ & _ & _ & _ & Hid & _) | [e ->]]; [|reflexivity].
  simpl. apply save_user_ids. by rewrite Hid.
Qed.

Lemma profile_update_keeps_user_ids_witness :
  user_id <$> users
    (snd (@UserUpdateView.as_view_put Sample.auth Sample.external
            (Some Sample.bob) {["email" := JString "rob@example.org"]}
            Sample.db0))
  = [1; 2].
Proof.
  rewrite (@profile_update_keeps_user_ids Sample.auth Sample.external).
  - reflexivity.
  - simpl. right. left.
Defined.

(** ** Two failure paths in general *)

(** X23. On the generic list a non-empty rating of ASCII characters that
    does not parse, or that lies outside 1..5, is never answered with 400:
    [get_queryset] returns the 400 response where a queryset is expected,
    and the request ends with the paginator's [TypeError], or with 404 when
    the page parameter is refused before the paginator counts. *)
Theorem generic_list_bad_rating_is_not_400
    (u : User) (qp : gmap string string) (s : string) (db : DB) :
  qp !! "rating" = Some s -> s <> "" -> Py.isascii s = true ->
  (Py.int s = None \/ exists r, Py.int s = Some r /\ (r < 1 \/ 5 < r)) ->
  (exists resp, ReviewViewSet.get_queryset qp db = ResponseObj resp
                /\ status resp = 400)
  /\ client_status (fst (ReviewViewSet.as_view_list (Some u) qp db)) <> 400
  /\ (fst (ReviewViewSet.as_view_list (Some u) qp db)
        = Raised (TypeError "object of type 'Response' has no len()")
      \/ fst (ReviewViewSet.as_view_list (Some u) qp db) = invalid_page).
Proof.
  intros Hs Hne _ Hbad.
  destruct (list_bad_rating u qp s db Hs Hne Hbad) as [Hq Hout].
  split; [exact Hq|]. split; [|exact Hout].
  destruct Hout as [-> | ->]; discriminate.
Qed.

Lemma generic_list_bad_rating_witness :
  fst (ReviewViewSet.as_view_list (Some Sample.bob)
         (<["page" := "x"]> {["rating" := "6"]}) Sample.db0)
  = invalid_page
  \/ fst (ReviewViewSet.as_view_list (Some Sample.bob)
            (<["page" := "x"]> {["rating" := "6"]}) Sample.db0)
     = Raised (TypeError "object of type 'Response' has no len()").
Proof.
  destruct (generic_list_bad_rating_is_not_400 Sample.bob
              (<["page" := "x"]> {["rating" := "6"]}) "6" Sample.db0)
    as (_ & _ & [Herr | Hpage]).
  - reflexivity.
  - discriminate.
  - reflexivity.
  - right. exists 6. split; [reflexivity | lia].
  - right. exact Herr.
  - left. exact Hpage.
Defined.

(** X24. Whenever no stored review has both the requested id and the acting
    user as its user (another user's review, or an id that is not stored),
    PUT and DELETE of [ReviewDetailView] leave with [Review.DoesNotExist],
    whatever the body, and the tables are unchanged. *)
Theorem ReviewDetailView_lookup_is_owner_scoped
    `{!Schema} (u : User) (id : Z) (data : gmap string Value) (db : DB) :
  (forall rv, rv ∈ reviews db -> review_id rv = id -> user rv <> user_id u) ->
  ReviewDetailView.as_view_put (Some u) id data db
    = (Raised (DoesNotExist "Review"), db)
  /\ ReviewDetailView.as_view_delete (Some u) id db
     = (Raised (DoesNotExist "Review"), db).
Proof. apply ReviewDetailView_not_owned. Qed.

Lemma ReviewDetailView_lookup_is_owner_scoped_witness :
  ReviewDetailView.as_view_delete (Some Sample.alice) 3 Sample.db0
  = (Raised (DoesNotExist "Review"), Sample.db0).
Proof.
  destruct (@ReviewDetailView_lookup_is_owner_scoped (Sample.schema true)
              Sample.alice 3 ∅ Sample.db0) as [_ Hdelete].
  - intros rv Hrv Hid Hu. simpl in Hrv.
    repeat (apply elem_of_cons in Hrv as [-> | Hrv]; [discriminate|]).
    by apply elem_of_nil in Hrv.
  - exact Hdelete.
Defined.
